(** * gpx2routecard: the route-card computation of [main.py]

    A shallow embedding of [src/gpx2routecard/main.py].

    Numbers.  The program computes with Python floats.  Here they are read as
    real numbers ([R]): [+], [-], [*], [/] are the field operations, the
    [math] functions are the real functions of the same name, and [round] and
    [%] are Python's definitions on exact values.  Results about equality
    and order of computed values are results about this reading; NaN and
    infinities have no counterpart, and neither has rounding error: for
    nearly antipodal points the float [a] of line 18 can round above 1, and
    [math.sqrt(1 - a)] then raises, where the exact [a] never exceeds 1.  Integers ([int]) are [Z], strings are
    [string], lists are [list], a raised exception is an [Err] result. *)

From Stdlib Require Import Reals Lra Lia ZArith List String Ascii Bool Zfloor.
From Stdlib Require Import DecimalString.
Import ListNotations.

Open Scope R_scope.

(** ** Python built-ins and [math] functions used by the program *)

Module Py.

(** [math.radians(x)] is [x * (pi / 180)], [math.degrees(x)] is
    [x * (180 / pi)]. *)
Definition radians (x : R) : R := x * (PI / 180).

Definition degrees (x : R) : R := x * (180 / PI).

(** [math.atan2(y, x)]: the angle of the point [(x, y)], in [(-pi, pi]]. *)
Definition atan2 (y x : R) : R :=
  if Rlt_dec 0 x then atan (y / x)
  else if Rlt_dec x 0 then
    (if Rle_dec 0 y then atan (y / x) + PI else atan (y / x) - PI)
  else if Rlt_dec 0 y then PI / 2
  else if Rlt_dec y 0 then - (PI / 2)
  else 0.

(** [x % y] on floats: the remainder has the sign of [y]. *)
Definition fmod (x y : R) : R := x - IZR (Zfloor (x / y)) * y.

(** [round(x)]: the nearest integer, a tie going to the even one. *)
Definition round (x : R) : Z :=
  let f := Zfloor x in
  let r := x - IZR f in
  if Rlt_dec r (1 / 2) then f
  else if Rlt_dec (1 / 2) r then (f + 1)%Z
  else if Z.even f then f else (f + 1)%Z.

(** [round(x, n)] for [n >= 0]: a float again. *)
Definition round_ndigits (x : R) (n : nat) : R :=
  IZR (round (x * 10 ^ n)) / 10 ^ n.

End Py.

(** ** Geodesy: [haversine] and [calculate_bearing] *)

Definition haversine (lat1 lon1 lat2 lon2 : R) : R :=
  let R_km := 6371 in
  let phi1 := Py.radians lat1 in
  let phi2 := Py.radians lat2 in
  let dphi := Py.radians (lat2 - lat1) in
  let dlambda := Py.radians (lon2 - lon1) in
  let a := sin (dphi / 2) ^ 2 + cos phi1 * cos phi2 * sin (dlambda / 2) ^ 2 in
  let c := 2 * Py.atan2 (sqrt a) (sqrt (1 - a)) in
  R_km * c.

(** The angle before normalisation, in degrees (line 29). *)
Definition raw_bearing (lat1 lon1 lat2 lon2 : R) : R :=
  let lat1 := Py.radians lat1 in
  let lon1 := Py.radians lon1 in
  let lat2 := Py.radians lat2 in
  let lon2 := Py.radians lon2 in
  let y := sin (lon2 - lon1) * cos lat2 in
  let x := cos lat1 * sin lat2 - sin lat1 * cos lat2 * cos (lon2 - lon1) in
  Py.degrees (Py.atan2 y x).

Definition calculate_bearing (lat1 lon1 lat2 lon2 : R) : Z :=
  let bearing := raw_bearing lat1 lon1 lat2 lon2 in
  let bearing := Py.fmod (bearing + 360) 360 in
  Py.round bearing.


(** ** Strings *)

(** The double quote and the degree sign (UTF-8: bytes 194, 176), written by
    their codes. *)
Definition dquote : string := String "034"%char EmptyString.

Definition degree_sign : string :=
  String "194"%char (String "176"%char EmptyString).

Definition string_of_nat (n : nat) : string :=
  NilZero.string_of_uint (Nat.to_uint n).

Fixpoint spaces (n : nat) : string :=
  match n with
  | O => EmptyString
  | S n' => String " "%char (spaces n')
  end.

Fixpoint zeros (n : nat) : string :=
  match n with
  | O => EmptyString
  | S n' => String "0"%char (zeros n')
  end.

(** [s.rjust(width)]: spaces on the left up to [width] characters. *)
Definition rjust (s : string) (width : nat) : string :=
  (spaces (width - String.length s) ++ s)%string.

(** [f"{z:03d}"]: zero-padded to three characters, a sign counting as one. *)
Definition format_03d (z : Z) : string :=
  let digits := string_of_nat (Z.abs_nat z) in
  if (z <? 0)%Z
  then ("-" ++ zeros (2 - String.length digits) ++ digits)%string
  else (zeros (3 - String.length digits) ++ digits)%string.

(** [s.lower()] on the ASCII letters; other bytes are kept (no character
    outside ASCII lowers to an ASCII one). *)
Definition lower_ascii (c : ascii) : ascii :=
  let n := nat_of_ascii c in
  if (65 <=? n)%nat && (n <=? 90)%nat then ascii_of_nat (n + 32) else c.

Fixpoint lower (s : string) : string :=
  match s with
  | EmptyString => EmptyString
  | String c s' => String (lower_ascii c) (lower s')
  end.

(** [s.rfind(c)]: the last position of [c], or -1. *)
Fixpoint rfind_from (c : ascii) (s : string) (i : Z) (found : Z) : Z :=
  match s with
  | EmptyString => found
  | String x s' =>
      rfind_from c s' (i + 1)%Z (if Ascii.eqb x c then i else found)
  end.

Definition rfind (c : ascii) (s : string) : Z := rfind_from c s 0%Z (-1)%Z.

(** The [while] loop of [genericpath._splitext]: is there a character other
    than a dot in [p[filenameIndex:dotIndex]]? *)
Fixpoint has_non_dot (p : string) (filenameIndex : nat) (count : nat) : bool :=
  match count with
  | O => false
  | S count' =>
      match String.get filenameIndex p with
      | Some c =>
          if Ascii.eqb c "."%char
          then has_non_dot p (S filenameIndex) count'
          else true
      | None => true
      end
  end.

(** [os.path.splitext] (POSIX: separator [/], no alternative separator). *)
Definition splitext (p : string) : string * string :=
  let sepIndex := rfind "/"%char p in
  let dotIndex := rfind "."%char p in
  if (sepIndex <? dotIndex)%Z
  then
    let filenameIndex := Z.to_nat (sepIndex + 1) in
    let dot := Z.to_nat dotIndex in
    if has_non_dot p filenameIndex (dot - filenameIndex)
    then (substring 0 dot p, substring dot (String.length p - dot) p)
    else (p, EmptyString)
  else (p, EmptyString).

(** ** Exceptions *)

Inductive exn : Type :=
  | ValueError            (* [min] of an empty range *)
  | IndexError            (* a list index out of range *)
  | GPXXMLSyntaxException (* [gpxpy.parse] on invalid XML *)
  | OtherException (what : string). (* I/O, HTTP, JSON, ... *)

Inductive result (A : Type) : Type :=
  | Ok (a : A)
  | Raise (e : exn).

Arguments Ok {A} a.
Arguments Raise {A} e.

Definition bind {A B : Type} (m : result A) (k : A -> result B) : result B :=
  match m with
  | Ok a => k a
  | Raise e => Raise e
  end.

Notation "x <- m ;; k" := (bind m (fun x => k))
  (at level 61, m at next level, right associativity).

(** [l[i]] for an index [i >= 0]. *)
Definition lookup {A : Type} (l : list A) (i : nat) : result A :=
  match nth_error l i with
  | Some a => Ok a
  | None => Raise IndexError
  end.

(** [range(lo, hi)]: empty when [hi <= lo]. *)
Definition range (lo hi : nat) : list nat := seq lo (hi - lo).

(** [min(items, key=key)]: an item replaces the best one so far only when
    its key is strictly smaller, so the first smallest item is returned;
    [ValueError] on no items. *)
Fixpoint min_from {A : Type} (key : A -> R) (best : A) (items : list A) : A :=
  match items with
  | [] => best
  | x :: items' =>
      min_from key (if Rlt_dec (key x) (key best) then x else best) items'
  end.

Definition py_min {A : Type} (items : list A) (key : A -> R) : result A :=
  match items with
  | [] => Raise ValueError
  | x :: items' => Ok (min_from key x items')
  end.

(** ** The parsed GPX file (what the program reads of it) *)

Definition point : Type := (R * R)%type.   (* (latitude, longitude) *)

Record GPXWaypoint : Type := {
  wpt_name : option string;
  wpt_description : option string;
  wpt_latitude : R;
  wpt_longitude : R
}.

Record GPX : Type := {
  gpx_routes : list (list point);         (* [route.points] of each route *)
  gpx_tracks : list (list (list point));  (* [segment.points], per track *)
  gpx_waypoints : list GPXWaypoint
}.

(** A cell of a row or of the worksheet: ['']/text, a float, an int. *)
Inductive value : Type :=
  | VStr (s : string)
  | VFloat (x : R)
  | VInt (z : Z).

(** The dict appended to [waypoints] (lines 103-110). *)
Record Row : Type := {
  grid_reference : string;
  name : string;
  distance_from_last_km : value;
  bearing : value;
  description : string;
  ascent : value
}.

(** What the program does to the outside, in order. *)
Inductive message : Type :=
  | Usage (prog : string)
  | ExpectedGpx (ext : string)
  | NoWaypointsFound
  | InvalidGPX
  | ConversionFailed (e : exn)
  | Converted (inp outp : string)
  | Found (n : nat).

Definition worksheet : Type := nat -> nat -> option value.

Inductive event : Type :=
  | Open (path : string)                 (* [open(gpx_file, 'r')] *)
  | Post (locations : list point)        (* [requests.post] *)
  | WriteXlsx (path : string) (ws : worksheet)
  | PrintOut (m : message)
  | PrintErr (m : message).

(** Truthiness of [wpt.name]: a non-empty string. *)
Definition truthy (s : option string) : bool :=
  match s with
  | Some (String _ _) => true
  | _ => false
  end.

(** [s or '']. *)
Definition or_empty (s : option string) : string :=
  match s with
  | Some (String c s') => String c s'
  | _ => EmptyString
  end.

(** ** Loops over lists with exceptions *)

(** [for i in items: st = body(i, st)], stopping at the first exception. *)
Fixpoint for_each {S : Type} (body : nat -> S -> result S)
    (items : list nat) (st : S) : result S :=
  match items with
  | [] => Ok st
  | i :: items' => st' <- body i st ;; for_each body items' st'
  end.

(** [[f(x) for x in l]]. *)
Fixpoint mapM {A B : Type} (f : A -> result B) (l : list A) : result (list B) :=
  match l with
  | [] => Ok []
  | x :: l' => y <- f x ;; ys <- mapM f l' ;; Ok (y :: ys)
  end.

(** [enumerate(l)]. *)
Definition enumerate {A : Type} (l : list A) : list (nat * A) :=
  combine (seq 0 (List.length l)) l.

(** ** [extract_named_waypoints] *)

Section Extractor.

(** The collaborators: the grid-reference converter and its [str], the GPX
    parser behind [open] and [gpxpy.parse], and the elevation service behind
    [requests.post], [raise_for_status] and [response.json()["results"]]. *)
Variable GridRef : Type.
Variable latlong2grid : R -> R -> GridRef.
Variable str_grid : GridRef -> string.
Variable gpxpy_parse : string -> result GPX.
Variable requests_post : list point -> result (list (R * R * R)).

(** A named point: [(name, description, lat, lon, grid_ref)]. *)
Definition named_point : Type := (string * string * R * R * GridRef)%type.

Definition np_name (p : named_point) : string :=
  let '(nm, _, _, _, _) := p in nm.
Definition np_desc (p : named_point) : string :=
  let '(_, desc, _, _, _) := p in desc.
Definition np_lat (p : named_point) : R :=
  let '(_, _, lat, _, _) := p in lat.
Definition np_lon (p : named_point) : R :=
  let '(_, _, _, lon, _) := p in lon.
Definition np_grid (p : named_point) : GridRef :=
  let '(_, _, _, _, g) := p in g.

(** Lines 43-49: the first route's points, else the first segment of the
    first track, else nothing. *)
Definition select_route_points (gpx : GPX) : list point :=
  match gpx_routes gpx with
  | (pt :: pts) :: _ => pt :: pts
  | _ =>
      match gpx_tracks gpx with
      | ((pt :: pts) :: _) :: _ => pt :: pts
      | _ => []
      end
  end.

(** Lines 52-55. *)
Definition start_entry (route_points : list point) : list named_point :=
  match route_points with
  | start :: _ =>
      [("START"%string, EmptyString, fst start, snd start,
        latlong2grid (fst start) (snd start))]
  | [] => []
  end.

(** Lines 56-59. *)
Fixpoint waypoint_entries (wpts : list GPXWaypoint) : list named_point :=
  match wpts with
  | [] => []
  | wpt :: wpts' =>
      if truthy (wpt_name wpt)
      then (or_empty (wpt_name wpt), or_empty (wpt_description wpt),
            wpt_latitude wpt, wpt_longitude wpt,
            latlong2grid (wpt_latitude wpt) (wpt_longitude wpt))
           :: waypoint_entries wpts'
      else waypoint_entries wpts'
  end.

(** Lines 61-63: [named_points[-1] = ('END', ...)] when the list is not
    empty. *)
Fixpoint rename_last (named_points : list named_point) : list named_point :=
  match named_points with
  | [] => []
  | [last_point] =>
      [("END"%string, np_desc last_point, np_lat last_point,
        np_lon last_point, np_grid last_point)]
  | p :: rest => p :: rename_last rest
  end.

Definition collect_named_points (gpx : GPX) : list named_point :=
  rename_last
    (start_entry (select_route_points gpx)
     ++ waypoint_entries (gpx_waypoints gpx)).

(** Line 66. *)
Definition locations_of (named_points : list named_point) : list point :=
  map (fun p => (np_lat p, np_lon p)) named_points.

(** Lines 113-118. *)
Definition get_elevations_post (locations : list point)
  : result (list (R * R * R)) :=
  results <- requests_post locations ;;
  Ok (map (fun r => let '(la, lo, el) := r in (la, lo, el)) results).

(** Lines 69-70.  The key reads [route_points[i]] for [i] in
    [range(len(route_points))], always a valid index. *)
Definition nearest_idx (route_points : list point) (lat lon : R) : result nat :=
  py_min (range 0 (List.length route_points))
    (fun i => haversine lat lon (fst (nth i route_points (0, 0)))
                                (snd (nth i route_points (0, 0)))).

(** Lines 83-86: one step of the inner loop. *)
Definition add_segment (route_points : list point) (j : nat) (total : R)
  : result R :=
  p1 <- lookup route_points j ;;
  p2 <- lookup route_points (j + 1) ;;
  Ok (total + haversine (fst p1) (snd p1) (fst p2) (snd p2)).

(** The three lists the loop of lines 81-96 appends to. *)
Record legs : Type := {
  distances : list R;
  bearings : list value;
  ascents : list value
}.

(** Lines 82-96: the body of the loop over the legs. *)
Definition leg_body (route_points : list point) (named_points : list named_point)
    (elevations : list (R * R * R)) (indices : list nat)
    (i : nat) (st : legs) : result legs :=
  lo <- lookup indices i ;;
  hi <- lookup indices (i + 1) ;;
  total <- for_each (add_segment route_points) (range lo hi) 0 ;;
  let distances' := distances st ++ [Py.round_ndigits total 2] in
  a <- lookup named_points i ;;
  b <- lookup named_points (i + 1) ;;
  let bearing := calculate_bearing (np_lat a) (np_lon a) (np_lat b) (np_lon b) in
  let bearings' :=
    bearings st ++ [VStr (format_03d bearing ++ degree_sign)%string] in
  e1 <- lookup elevations (i + 1) ;;
  e0 <- lookup elevations i ;;
  let elev_diff := snd e1 - snd e0 in
  let ascents' := ascents st ++ [VInt (Py.round elev_diff)] in
  Ok {| distances := distances'; bearings := bearings'; ascents := ascents' |}.

(** Lines 103-110: the row of the named point at position [i]. *)
Definition emit_row (st : legs) (ip : nat * named_point) : result Row :=
  let (i, p) := ip in
  d <- (if (0 <? i)%nat
        then x <- lookup (distances st) (i - 1) ;; Ok (VFloat x)
        else Ok (VStr EmptyString)) ;;
  b <- lookup (bearings st) i ;;
  a <- lookup (ascents st) i ;;
  Ok {| grid_reference := rjust (str_grid (np_grid p)) 8;
        name := np_name p;
        distance_from_last_km := d;
        bearing := b;
        description := np_desc p;
        ascent := a |}.

(** Lines 69-111, once the geometry, the named points and the elevations
    are there. *)
Definition build_rows (route_points : list point)
    (named_points : list named_point) (elevations : list (R * R * R))
  : result (list Row) :=
  indices <- mapM (fun p => nearest_idx route_points (np_lat p) (np_lon p))
                  named_points ;;
  let st0 := {| distances := [];
                bearings := [VStr EmptyString];
                ascents := [VStr EmptyString] |} in
  st <- for_each (leg_body route_points named_points elevations indices)
                 (range 0 (List.length indices - 1)) st0 ;;
  let st' := {| distances := distances st;
                bearings := bearings st ++ [VStr EmptyString];
                ascents := ascents st ++ [VStr EmptyString] |} in
  mapM (emit_row st') (enumerate named_points).

Definition extract_named_waypoints (gpx_file : string)
  : list event * result (list Row) :=
  match gpxpy_parse gpx_file with
  | Raise e => ([Open gpx_file], Raise e)
  | Ok gpx =>
      let route_points := select_route_points gpx in
      let named_points := collect_named_points gpx in
      let locations := locations_of named_points in
      match get_elevations_post locations with
      | Raise e => ([Open gpx_file; Post locations], Raise e)
      | Ok elevations =>
          ([Open gpx_file; Post locations],
           build_rows route_points named_points elevations)
      end
  end.

(** ** The worksheet *)

(** [worksheet.cell(row=r, column=c, value=v)]. *)
Definition ws_set (r c : nat) (v : value) (ws : worksheet) : worksheet :=
  fun r' c' => if ((r' =? r) && (c' =? c))%nat then Some v else ws r' c'.

(** [worksheet.insert_cols(idx)]: an empty column before column [idx]. *)
Definition insert_cols (idx : nat) (ws : worksheet) : worksheet :=
  fun r c =>
    if (c <? idx)%nat then ws r c
    else if (c =? idx)%nat then None
    else ws r (c - 1)%nat.

(** Lines 136-142: the columns of the frame, in order, and their headings. *)
Definition row_cells (r : Row) : list value :=
  [VStr (grid_reference r); VStr (name r); distance_from_last_km r;
   bearing r; ascent r; VStr (description r); VStr EmptyString].

Definition headings : list value :=
  [VStr "Grid Reference"; VStr "Waypoint"; VStr "Distance (km)";
   VStr "Bearing"; VStr "Ascent (m)"; VStr "Description";
   VStr "Escape Notes"].

(** Line 145, [df.to_excel(..., index=False, header=True)]: the headings in
    row 1, the frame's rows from row 2, columns from 1. *)
Definition to_excel (rows : list Row) : worksheet :=
  fun r c =>
    if (c =? 0)%nat then None
    else if (r =? 1)%nat then nth_error headings (c - 1)
    else if (2 <=? r)%nat then
      match nth_error rows (r - 2) with
      | Some row => nth_error (row_cells row) (c - 1)
      | None => None
      end
    else None.

(** Lines 167, 176-181 and 190-195: the formula texts. *)
Definition time_formula (row : nat) : string :=
  let r := string_of_nat row in
  ("=IF(AND(C" ++ r ++ "<>" ++ dquote ++ dquote ++ ",E" ++ r ++ "<>"
   ++ dquote ++ dquote ++ "),C" ++ r ++ "*20+E" ++ r ++ "/10,"
   ++ dquote ++ dquote ++ ")")%string.

Definition rest_formula (row : nat) : string :=
  if (row =? 2)%nat then ("=" ++ dquote ++ dquote)%string else "=10"%string.

Definition arrival_formula (row : nat) : string :=
  if (row =? 2)%nat then "=TIME(8,0,0)"%string
  else
    let r := string_of_nat row in
    ("=IF(F" ++ r ++ "<>" ++ dquote ++ dquote ++ ",H"
     ++ string_of_nat (row - 1) ++ "+TIME(0,F" ++ r ++ "+G" ++ r ++ ",0),"
     ++ dquote ++ dquote ++ ")")%string.

(** [for row in range(2, len(df) + 2): worksheet.cell(row, column, f(row))]. *)
Definition fill_column (column : nat) (formula : nat -> string) (n : nat)
    (ws : worksheet) : worksheet :=
  fold_left (fun ws row => ws_set row column (VStr (formula row)) ws)
            (range 2 (n + 2)) ws.

(** Lines 145-197, the cell values (widths, borders, fills, alignments and
    the table object carry no value and are left out). *)
Definition build_worksheet (rows : list Row) : worksheet :=
  let n := List.length rows in
  let ws := to_excel rows in
  let ws := insert_cols 6 ws in
  let ws := ws_set 1 6 (VStr "Time (min)") ws in
  let ws := fill_column 6 time_formula n ws in
  let ws := insert_cols 7 ws in
  let ws := ws_set 1 7 (VStr "Rest (min)") ws in
  let ws := fill_column 7 rest_formula n ws in
  let ws := insert_cols 8 ws in
  let ws := ws_set 1 8 (VStr "Arrival Time") ws in
  fill_column 8 arrival_formula n ws.

(** The spreadsheet's formula engine, on the formulas that are a literal:
    [=] followed by an unsigned decimal number, or by a text between double
    quotes.  Other formulas are not evaluated here. *)
Definition is_digit (c : ascii) : bool :=
  let n := nat_of_ascii c in ((48 <=? n) && (n <=? 57))%nat.

Fixpoint all_digits (s : string) : bool :=
  match s with
  | EmptyString => true
  | String c s' => is_digit c && all_digits s'
  end.

Fixpoint decimal_value (s : string) (acc : Z) : Z :=
  match s with
  | EmptyString => acc
  | String c s' =>
      decimal_value s' (10 * acc + Z.of_nat (nat_of_ascii c - 48))%Z
  end.

(** The text up to a closing double quote that ends the string. *)
Fixpoint quoted_text (s : string) : option string :=
  match s with
  | EmptyString => None
  | String c s' =>
      if Ascii.eqb c "034"%char
      then (match s' with EmptyString => Some EmptyString | _ => None end)
      else option_map (String c) (quoted_text s')
  end.

Definition eval_literal_formula (f : string) : option value :=
  match f with
  | String "="%char (String c body) =>
      if Ascii.eqb c "034"%char then option_map VStr (quoted_text body)
      else if all_digits (String c body)
           then Some (VInt (decimal_value (String c body) 0))
           else None
  | _ => None
  end.

(** ** [main] *)

Record outcome : Type := {
  exit_code : Z;
  events : list event
}.

(** [os.path.basename] (POSIX). *)
Definition basename (p : string) : string :=
  let i := Z.to_nat (rfind "/"%char p + 1) in
  substring i (String.length p - i) p.

(** The spreadsheet writer: the [with pd.ExcelWriter(outp, ...)] block of
    lines 144-249 with the worksheet it is given, which saves the file when
    it ends, or raises (the path is a directory, the disk is full, ...). *)
Variable write_xlsx : string -> worksheet -> result unit.

(** Lines 120-257.  [sys.exit(1)] inside the [try] is a [SystemExit], which
    [except Exception] does not catch; an exception of the writer is caught
    like one of the extraction.  [WriteXlsx] stands for a file that was
    saved: when the writer raises, no saved file is recorded (a file may
    have been created, empty or partial). *)
Definition main (argv : list string) : outcome :=
  if negb (List.length argv =? 2)%nat then
    {| exit_code := 1;
       events := [PrintOut (Usage (basename (nth 0 argv EmptyString)))] |}
  else
    let inp := nth 1 argv EmptyString in
    let (base, ext) := splitext inp in
    if negb (String.eqb (lower ext) ".gpx") then
      {| exit_code := 1; events := [PrintOut (ExpectedGpx ext)] |}
    else
      let outp := (base ++ ".xlsx")%string in
      match extract_named_waypoints inp with
      | (evs, Raise GPXXMLSyntaxException) =>
          {| exit_code := 1; events := evs ++ [PrintErr InvalidGPX] |}
      | (evs, Raise e) =>
          {| exit_code := 1; events := evs ++ [PrintErr (ConversionFailed e)] |}
      | (evs, Ok []) =>
          {| exit_code := 1; events := evs ++ [PrintErr NoWaypointsFound] |}
      | (evs, Ok waypoints) =>
          match write_xlsx outp (build_worksheet waypoints) with
          | Ok _ =>
              {| exit_code := 0;
                 events := evs ++ [WriteXlsx outp (build_worksheet waypoints);
                                   PrintOut (Converted inp outp);
                                   PrintOut (Found (List.length waypoints))] |}
          | Raise GPXXMLSyntaxException =>
              {| exit_code := 1; events := evs ++ [PrintErr InvalidGPX] |}
          | Raise e =>
              {| exit_code := 1;
                 events := evs ++ [PrintErr (ConversionFailed e)] |}
          end
      end.

End Extractor.

Arguments np_name {GridRef} p.
Arguments np_desc {GridRef} p.
Arguments np_lat {GridRef} p.
Arguments np_lon {GridRef} p.
Arguments np_grid {GridRef} p.
Arguments start_entry {GridRef} latlong2grid route_points.
Arguments waypoint_entries {GridRef} latlong2grid wpts.
Arguments rename_last {GridRef} named_points.
Arguments collect_named_points {GridRef} latlong2grid gpx.
Arguments locations_of {GridRef} named_points.
Arguments leg_body {GridRef} route_points named_points elevations indices i st.
Arguments emit_row {GridRef} str_grid st ip.
Arguments build_rows {GridRef} str_grid route_points named_points elevations.
Arguments extract_named_waypoints {GridRef} latlong2grid str_grid gpxpy_parse
  requests_post gpx_file.
Arguments main {GridRef} latlong2grid str_grid gpxpy_parse requests_post
  write_xlsx argv.

(** ** The quantities the specification speaks of *)

(** The length of the polyline segment from point [j] to point [j + 1]. *)
Definition segment (route_points : list point) (j : nat) : R :=
  let p1 := nth j route_points (0, 0) in
  let p2 := nth (j + 1) route_points (0, 0) in
  haversine (fst p1) (snd p1) (fst p2) (snd p2).

Definition Rsum (l : list R) : R := fold_right Rplus 0 l.

(** The sum of the segment lengths over every adjacent polyline pair from
    index [p] up to index [q]. *)
Definition polyline_distance (route_points : list point) (p q : nat) : R :=
  Rsum (map (segment route_points) (range p q)).

(** The distance from a position to the polyline point of index [j]. *)
Definition distance_to (route_points : list point) (lat lon : R) (j : nat) : R :=
  haversine lat lon (fst (nth j route_points (0, 0)))
                    (snd (nth j route_points (0, 0))).

(** The elevation the service gave for the named point at position [i]. *)
Definition elevation (elevations : list (R * R * R)) (i : nat) : R :=
  snd (nth i elevations (0, 0, 0)).

(** The emitted elevation delta of a row, a blank counting for nothing. *)
Definition delta_of (r : Row) : Z :=
  match ascent r with
  | VInt z => z
  | _ => 0%Z
  end.

Definition sum_of_deltas (rows : list Row) : Z :=
  fold_right Z.add 0%Z (map delta_of rows).

(** ** What the loops compute, in closed form *)

(** The index [nearest_idx] returns (0 where it raises). *)
Definition matched_index (route_points : list point) (lat lon : R) : nat :=
  match nearest_idx route_points lat lon with
  | Ok i => i
  | Raise _ => 0%nat
  end.

Definition matched_indices (GridRef : Type) (route_points : list point)
    (named_points : list (named_point GridRef)) : list nat :=
  map (fun p => matched_index route_points (np_lat p) (np_lon p)) named_points.

(** What leg [i] (from named point [i] to named point [i + 1]) appends to
    [distances], [bearings] and [ascents]. *)
Definition leg_distance (route_points : list point) (indices : list nat)
    (i : nat) : R :=
  Py.round_ndigits
    (polyline_distance route_points (nth i indices 0%nat)
       (nth (i + 1) indices 0%nat)) 2.

Definition leg_bearing (GridRef : Type)
    (named_points : list (named_point GridRef)) (i : nat) : value :=
  VStr (format_03d
          (calculate_bearing
             (nth i (map np_lat named_points) 0)
             (nth i (map np_lon named_points) 0)
             (nth (i + 1) (map np_lat named_points) 0)
             (nth (i + 1) (map np_lon named_points) 0))
        ++ degree_sign)%string.

Definition leg_ascent (elevations : list (R * R * R)) (i : nat) : value :=
  VInt (Py.round (elevation elevations (i + 1) - elevation elevations i)).

(** The row of the named point [p] at position [i]. *)
Definition row_of (GridRef : Type) (str_grid : GridRef -> string)
    (route_points : list point) (named_points : list (named_point GridRef))
    (elevations : list (R * R * R)) (ip : nat * named_point GridRef) : Row :=
  let (i, p) := ip in
  {| grid_reference := rjust (str_grid (np_grid p)) 8;
     name := np_name p;
     distance_from_last_km :=
       if (0 <? i)%nat
       then VFloat (leg_distance route_points
                      (matched_indices GridRef route_points named_points)
                      (i - 1))
       else VStr EmptyString;
     bearing :=
       if (0 <? i)%nat then leg_bearing GridRef named_points (i - 1)
       else VStr EmptyString;
     description := np_desc p;
     ascent :=
       if (0 <? i)%nat then leg_ascent elevations (i - 1)
       else VStr EmptyString |}.

(** A named point after line 63. *)
Definition renamed (GridRef : Type) (p : named_point GridRef)
  : named_point GridRef :=
  ("END"%string, np_desc p, np_lat p, np_lon p, np_grid p).

(** The delta of row [i]: nothing for the first row, then one rounded
    difference per leg. *)
Definition delta_at (elevations : list (R * R * R)) (i : nat) : Z :=
  if (0 <? i)%nat
  then Py.round (elevation elevations i - elevation elevations (i - 1))
  else 0%Z.

(** An outcome in which an output file was written. *)
Definition writes_file (o : outcome) : Prop :=
  exists path ws, In (WriteXlsx path ws) (events o).

(** ** A small route, for the examples *)

Module Example.

(** Three points along the equator, two named waypoints. *)
Definition route : list point := [(0, 0); (0, 1); (0, 2)].

Definition summit : GPXWaypoint :=
  {| wpt_name := Some "Summit"%string;
     wpt_description := Some "Trig point"%string;
     wpt_latitude := 0;
     wpt_longitude := 1 |}.

Definition hut : GPXWaypoint :=
  {| wpt_name := Some "Hut"%string;
     wpt_description := None;
     wpt_latitude := 0;
     wpt_longitude := 2 |}.

Definition unnamed : GPXWaypoint :=
  {| wpt_name := None;
     wpt_description := Some "Gate"%string;
     wpt_latitude := 0;
     wpt_longitude := 1 |}.

Definition gpx : GPX :=
  {| gpx_routes := [route]; gpx_tracks := []; gpx_waypoints := [summit; hut] |}.

Definition gpx_start_only : GPX :=
  {| gpx_routes := []; gpx_tracks := [[route]]; gpx_waypoints := [unnamed] |}.

Definition latlong2grid (lat lon : R) : string := "TL 123 456"%string.

Definition str_grid (g : string) : string := g.

Definition parse (path : string) : result GPX := Ok gpx.

Definition parse_start_only (path : string) : result GPX := Ok gpx_start_only.

Definition integer_elevations : list (R * R * R) :=
  [(0, 0, 100); (0, 1, 250); (0, 2, 180)].

Definition fractional_elevations : list (R * R * R) :=
  [(0, 0, 0); (0, 1, 3 / 5); (0, 2, 6 / 5)].

Definition surplus_elevations : list (R * R * R) :=
  [(0, 0, 100); (0, 1, 250); (0, 2, 180); (0, 3, 90)].

Definition short_elevations : list (R * R * R) := [(0, 0, 100)].

Definition post (elevations : list (R * R * R)) (locations : list point)
  : result (list (R * R * R)) := Ok elevations.

Definition save (path : string) (ws : worksheet) : result unit := Ok tt.

Definition end_row : Row :=
  {| grid_reference := "TL 123 456"%string;
     name := "END"%string;
     distance_from_last_km := VStr EmptyString;
     bearing := VStr EmptyString;
     description := EmptyString;
     ascent := VStr EmptyString |}.

End Example.

(** ** Further quantities *)

(** The GPX waypoints that have a name, in file order. *)
Definition named_waypoints (gpx : GPX) : list GPXWaypoint :=
  filter (fun wpt => truthy (wpt_name wpt)) (gpx_waypoints gpx).

(** The message [main] prints for an exception of the conversion (lines
    252-257). *)
Definition failure_message (e : exn) : message :=
  match e with
  | GPXXMLSyntaxException => InvalidGPX
  | _ => ConversionFailed e
  end.

(** Row [r] is one of the [n] data rows, [range(2, n + 2)]. *)
Definition is_data_row (n r : nat) : bool := ((2 <=? r) && (r <? n + 2))%nat.

(** ** Files without a polyline, and a file that does not parse *)

Module Edge.

Definition gpx_waypoints_only : GPX :=
  {| gpx_routes := [];
     gpx_tracks := [[]];
     gpx_waypoints := [Example.summit; Example.unnamed] |}.

Definition gpx_empty : GPX :=
  {| gpx_routes := [[]]; gpx_tracks := []; gpx_waypoints := [Example.unnamed] |}.

Definition parse_waypoints_only (path : string) : result GPX :=
  Ok gpx_waypoints_only.

Definition parse_empty (path : string) : result GPX := Ok gpx_empty.

Definition parse_invalid (path : string) : result GPX :=
  Raise GPXXMLSyntaxException.

Definition save_refused (path : string) (ws : worksheet) : result unit :=
  Raise (OtherException "IsADirectoryError").

End Edge.

(** ** The string helpers on concrete inputs *)

Example splitext_kml : splitext "route.kml" = ("route", ".kml")%string.
Proof. reflexivity. Qed.

Example splitext_upper : splitext "walks/Day1.GPX" = ("walks/Day1", ".GPX")%string.
Proof. reflexivity. Qed.

Example splitext_leading_dot : splitext ".gpx" = (".gpx", "")%string.
Proof. reflexivity. Qed.

Example splitext_dot_in_directory :
  splitext "dir.gpx/file" = ("dir.gpx/file", "")%string.
Proof. reflexivity. Qed.

Example lower_mixed : lower ".GpX" = ".gpx"%string.
Proof. reflexivity. Qed.

Example format_03d_7 : format_03d 7 = "007"%string.
Proof. reflexivity. Qed.

Example format_03d_negative : format_03d (-5) = "-05"%string.
Proof. reflexivity. Qed.

Example rjust_short : rjust "SK1234" 8 = "  SK1234"%string.
Proof. reflexivity. Qed.

Example rjust_long : rjust "SK 12345 67890" 8 = "SK 12345 67890"%string.
Proof. reflexivity. Qed.

Example arrival_formula_12 :
  arrival_formula 12
  = ("=IF(F12<>" ++ dquote ++ dquote ++ ",H11+TIME(0,F12+G12,0),"
     ++ dquote ++ dquote ++ ")")%string.
Proof. reflexivity. Qed.

Example eval_time_formula_is_not_a_literal :
  eval_literal_formula "=TIME(8,0,0)" = None.
Proof. reflexivity. Qed.

(** ** Facts about the built-ins *)

Lemma fmod_360_range (x : R) : 0 <= Py.fmod x 360 < 360.
Proof.
  unfold Py.fmod.
  pose proof (Zfloor_bound (x / 360)) as [Hlo Hhi].
  assert (Hx : x = x / 360 * 360) by (field).
  split; nra.
Qed.

Lemma fmod_360_small (x : R) : 0 <= x < 360 -> Py.fmod x 360 = x.
Proof.
  intros [Hlo Hhi]. unfold Py.fmod.
  rewrite (Zfloor_eq 0 (x / 360)).
  - simpl. ring.
  - simpl. split.
    + apply Rmult_le_pos; lra.
    + apply (Rmult_lt_reg_r 360); [lra|].
      replace (x / 360 * 360) with x by field. lra.
Qed.

Lemma round_bounds (x : R) :
  IZR (Py.round x) - 1 / 2 <= x <= IZR (Py.round x) + 1 / 2.
Proof.
  unfold Py.round.
  pose proof (Zfloor_bound x) as [Hlo Hhi].
  destruct (Rlt_dec _ _) as [H1|H1].
  - lra.
  - destruct (Rlt_dec _ _) as [H2|H2].
    + rewrite plus_IZR. simpl. lra.
    + destruct (Z.even _); [lra|]. rewrite plus_IZR. simpl. lra.
Qed.

Lemma round_IZR (z : Z) : Py.round (IZR z) = z.
Proof.
  unfold Py.round. rewrite ZfloorZ.
  destruct (Rlt_dec _ _) as [H|H]; [reflexivity|]. lra.
Qed.

Lemma round_mono (x y : R) : x <= y -> (Py.round x <= Py.round y)%Z.
Proof.
  intros Hxy. unfold Py.round.
  pose proof (Zfloor_le _ _ Hxy) as Hf.
  pose proof (Zfloor_bound x) as [Hxl Hxh].
  pose proof (Zfloor_bound y) as [Hyl Hyh].
  destruct (Z.eq_dec (Zfloor x) (Zfloor y)) as [E|NE].
  - rewrite E in *.
    repeat destruct (Rlt_dec _ _); try lia; try lra;
      destruct (Z.even _); try lia; try lra.
  - assert (Hlt : (Zfloor x + 1 <= Zfloor y)%Z) by lia.
    repeat destruct (Rlt_dec _ _); try lia;
      repeat destruct (Z.even _); lia.
Qed.

Lemma radians_opp x : Py.radians (- x) = - Py.radians x.
Proof. unfold Py.radians. ring. Qed.

Lemma haversine_sym lat1 lon1 lat2 lon2 :
  haversine lat1 lon1 lat2 lon2 = haversine lat2 lon2 lat1 lon1.
Proof.
  unfold haversine.
  replace (lat1 - lat2) with (- (lat2 - lat1)) by ring.
  replace (lon1 - lon2) with (- (lon2 - lon1)) by ring.
  rewrite !radians_opp.
  replace (- Py.radians (lat2 - lat1) / 2) with (- (Py.radians (lat2 - lat1) / 2)) by lra.
  replace (- Py.radians (lon2 - lon1) / 2) with (- (Py.radians (lon2 - lon1) / 2)) by lra.
  rewrite !sin_neg.
  replace ((- sin (Py.radians (lat2 - lat1) / 2)) ^ 2) with (sin (Py.radians (lat2 - lat1) / 2) ^ 2) by ring.
  replace ((- sin (Py.radians (lon2 - lon1) / 2)) ^ 2) with (sin (Py.radians (lon2 - lon1) / 2) ^ 2) by ring.
  rewrite (Rmult_comm (cos (Py.radians lat2)) (cos (Py.radians lat1))).
  reflexivity.
Qed.

Lemma radians_0 : Py.radians 0 = 0.
Proof. unfold Py.radians. ring. Qed.

Lemma haversine_same lat lon : haversine lat lon lat lon = 0.
Proof.
  unfold haversine.
  replace (lat - lat) with 0 by ring. replace (lon - lon) with 0 by ring.
  rewrite radians_0.
  replace (0 / 2) with 0 by lra. rewrite sin_0.
  replace (0 ^ 2 + cos (Py.radians lat) * cos (Py.radians lat) * 0 ^ 2) with 0 by ring.
  replace (1 - 0) with 1 by ring. rewrite sqrt_0, sqrt_1.
  unfold Py.atan2. destruct (Rlt_dec 0 1) as [_|H]; [|lra].
  replace (0 / 1) with 0 by lra. rewrite atan_0. ring.
Qed.

(** [math.sqrt] is never given a negative number: the quantity [a] of
    [haversine] lies in [[0, 1]]. *)
Lemma haversine_a_range (p1 p2 d l : R) :
  d = p2 - p1 ->
  let a := sin (d / 2) ^ 2 + cos p1 * cos p2 * sin (l / 2) ^ 2 in
  0 <= a <= 1.
Proof.
  intros Hd a.
  assert (Hs : 0 <= sin (l / 2) ^ 2 <= 1).
  { pose proof (sin2_cos2 (l / 2)) as H. unfold Rsqr in H.
    pose proof (pow2_ge_0 (sin (l / 2))). pose proof (pow2_ge_0 (cos (l / 2))).
    nra. }
  assert (Hcd : cos d = 1 - 2 * sin (d / 2) ^ 2).
  { replace d with (2 * (d / 2)) at 1 by field. rewrite cos_2a_sin. ring. }
  assert (Hcc : cos p1 * cos p2 = (cos d + cos (p1 + p2)) / 2).
  { subst d. rewrite cos_minus, cos_plus. field. }
  pose proof (COS_bound d) as [Hd1 Hd2].
  pose proof (COS_bound (p1 + p2)) as [Hp1 Hp2].
  unfold a. rewrite Hcc.
  set (s := sin (l / 2) ^ 2) in *.
  assert (E : sin (d / 2) ^ 2 = (1 - cos d) / 2) by lra.
  rewrite E. split; nra.
Qed.

Lemma haversine_sqrt_domain (lat1 lon1 lat2 lon2 : R) :
  0 <= sin (Py.radians (lat2 - lat1) / 2) ^ 2
       + cos (Py.radians lat1) * cos (Py.radians lat2)
         * sin (Py.radians (lon2 - lon1) / 2) ^ 2 <= 1.
Proof.
  apply (haversine_a_range (Py.radians lat1) (Py.radians lat2)).
  unfold Py.radians. ring.
Qed.

(** C7: for every pair of coordinates [a], [b], [distance(a, b)] equals
    [distance(b, a)], and for every coordinate [a], [distance(a, a)] is 0
    (on the real-number reading of the float operations). *)
Theorem haversine_symmetric_and_zero_on_same_point :
  (forall lat1 lon1 lat2 lon2 : R,
     haversine lat1 lon1 lat2 lon2 = haversine lat2 lon2 lat1 lon1) /\
  (forall lat lon : R, haversine lat lon lat lon = 0).
Proof.
  split.
  - exact haversine_sym.
  - exact haversine_same.
Qed.

Lemma round_upper_half (x : R) (z : Z) :
  IZR z + 1 / 2 < x < IZR z + 1 -> Py.round x = (z + 1)%Z.
Proof.
  intros [Hlo Hhi]. unfold Py.round.
  rewrite (Zfloor_eq z x) by lra.
  destruct (Rlt_dec _ _) as [H|H]; [lra|].
  destruct (Rlt_dec _ _) as [H'|H']; [reflexivity|lra].
Qed.

Lemma calculate_bearing_range lat1 lon1 lat2 lon2 :
  (0 <= calculate_bearing lat1 lon1 lat2 lon2 <= 360)%Z.
Proof.
  unfold calculate_bearing.
  pose proof (fmod_360_range (raw_bearing lat1 lon1 lat2 lon2 + 360)) as [Hlo Hhi].
  split.
  - apply Z.le_trans with (Py.round 0).
    + rewrite round_IZR. lia.
    + apply round_mono. exact Hlo.
  - apply Z.le_trans with (Py.round 360).
    + apply round_mono. lra.
    + rewrite round_IZR. lia.
Qed.

Lemma small_angle_bounds : 0 < atan (sin (PI / 1800)) < PI / 360.
Proof.
  pose proof PI_RGT_0 as Hpi.
  assert (Hs : 0 < sin (PI / 1800)) by (apply sin_gt_0; lra).
  split.
  - rewrite <- atan_0. apply atan_increasing. exact Hs.
  - rewrite <- (atan_tan (PI / 360)) by lra.
    apply atan_increasing.
    apply Rlt_le_trans with (sin (PI / 360)).
    + apply sin_increasing_1; lra.
    + unfold tan.
      assert (Hc : 0 < cos (PI / 360)) by (apply cos_gt_0; lra).
      assert (Hs' : 0 < sin (PI / 360)) by (apply sin_gt_0; lra).
      pose proof (COS_bound (PI / 360)) as [_ Hc1].
      apply (Rmult_le_reg_r (cos (PI / 360))); [exact Hc|].
      replace (sin (PI / 360) / cos (PI / 360) * cos (PI / 360))
        with (sin (PI / 360)) by (field; lra).
      nra.
Qed.

Lemma raw_bearing_just_west_of_north :
  - (1 / 2) < raw_bearing 0 0 45 (- (1 / 10)) < 0.
Proof.
  pose proof PI_RGT_0 as Hpi.
  unfold raw_bearing, Py.radians.
  replace (0 * (PI / 180)) with 0 by ring.
  replace (45 * (PI / 180)) with (PI / 4) by field.
  replace (- (1 / 10) * (PI / 180) - 0) with (- (PI / 1800)) by field.
  rewrite sin_0, cos_0, sin_neg, cos_neg, sin_PI4, cos_PI4.
  assert (Hq : 0 < 1 / sqrt 2).
  { apply Rdiv_lt_0_compat; [lra|]. apply sqrt_lt_R0. lra. }
  replace (1 * (1 / sqrt 2) - 0 * (1 / sqrt 2) * cos (PI / 1800))
    with (1 / sqrt 2) by ring.
  unfold Py.atan2. destruct (Rlt_dec 0 (1 / sqrt 2)) as [_|H]; [|lra].
  replace (- sin (PI / 1800) * (1 / sqrt 2) / (1 / sqrt 2))
    with (- sin (PI / 1800)) by (field; apply sqrt2_neq_0).
  rewrite atan_opp.
  pose proof small_angle_bounds as [Hlo Hhi].
  unfold Py.degrees.
  assert (Hk : 0 < 180 / PI) by (apply Rdiv_lt_0_compat; lra).
  split.
  - assert (E : - (1 / 2) = - (PI / 360) * (180 / PI)) by (field; lra).
    rewrite E. apply Rmult_lt_compat_r; lra.
  - nra.
Qed.

(** C3, at the failing input: from latitude 0, longitude 0 towards latitude
    45, longitude -0.1 the angle is between 359.5 and 360 degrees after
    normalisation, and rounding then gives 360, which is outside [[0, 360)];
    the emitted bearing text is [360] followed by the degree sign. *)
Theorem calculate_bearing_reaches_360 :
  calculate_bearing 0 0 45 (- (1 / 10)) = 360%Z /\
  format_03d (calculate_bearing 0 0 45 (- (1 / 10))) = "360"%string /\
  ~ (0 <= calculate_bearing 0 0 45 (- (1 / 10)) < 360)%Z.
Proof.
  assert (E : calculate_bearing 0 0 45 (- (1 / 10)) = 360%Z).
  { unfold calculate_bearing.
    pose proof raw_bearing_just_west_of_north as [Hlo Hhi].
    rewrite fmod_360_small by lra.
    apply (round_upper_half _ 359). lra. }
  rewrite E. split; [reflexivity|]. split; [reflexivity|]. lia.
Qed.

(** ** Lists, lookups and loops *)

Lemma lookup_ok {A : Type} (l : list A) (i : nat) (d : A) :
  (i < List.length l)%nat -> lookup l i = Ok (nth i l d).
Proof.
  intros H. unfold lookup.
  rewrite (nth_error_nth' l d H). reflexivity.
Qed.

Lemma lookup_out {A : Type} (l : list A) (i : nat) :
  (List.length l <= i)%nat -> lookup l i = Raise IndexError.
Proof.
  intros H. unfold lookup.
  apply nth_error_None in H. rewrite H. reflexivity.
Qed.

Lemma for_each_app {S : Type} (body : nat -> S -> result S)
    (l1 l2 : list nat) (st : S) :
  for_each body (l1 ++ l2) st = (st' <- for_each body l1 st ;; for_each body l2 st').
Proof.
  revert st. induction l1 as [|i l1 IH]; intros st; simpl.
  - reflexivity.
  - destruct (body i st) as [st'|e]; simpl; [apply IH|reflexivity].
Qed.

Lemma mapM_ok {A B : Type} (f : A -> result B) (g : A -> B) (l : list A) :
  (forall x, In x l -> f x = Ok (g x)) -> mapM f l = Ok (map g l).
Proof.
  induction l as [|x l IH]; intros H; simpl.
  - reflexivity.
  - rewrite (H x) by (left; reflexivity). simpl.
    rewrite IH by (intros y Hy; apply H; right; exact Hy).
    reflexivity.
Qed.

Lemma range_0 (n : nat) : range 0 n = seq 0 n.
Proof. unfold range. rewrite Nat.sub_0_r. reflexivity. Qed.

Lemma range_empty (p q : nat) : (q <= p)%nat -> range p q = [].
Proof.
  intros H. unfold range. replace (q - p)%nat with 0%nat by lia. reflexivity.
Qed.

Lemma in_range (p q j : nat) : In j (range p q) -> (p <= j < q)%nat.
Proof. unfold range. rewrite in_seq. lia. Qed.

(** ** [min] with a key *)

Lemma min_from_split {A : Type} (key : A -> R) (items : list A) (best : A) :
  exists l1 l2,
    best :: items = l1 ++ min_from key best items :: l2 /\
    (forall x, In x l1 -> key (min_from key best items) < key x) /\
    (forall x, In x l2 -> key (min_from key best items) <= key x).
Proof.
  revert best. induction items as [|x items IH]; intros best; simpl.
  - exists [], []. repeat split; simpl; intros; contradiction.
  - destruct (Rlt_dec (key x) (key best)) as [Hlt|Hge].
    + destruct (IH x) as (l1 & l2 & E & H1 & H2).
      set (m := min_from key x items) in *.
      exists (best :: l1), l2. split; [|split].
      * simpl. rewrite E. reflexivity.
      * assert (Hmx : key m <= key x).
        { destruct l1 as [|y l1].
          - simpl in E. injection E as E _. rewrite E. lra.
          - simpl in E. injection E as E _. subst y.
            left. apply H1. left. reflexivity. }
        intros y [Hy|Hy]; [subst y; lra|apply H1; exact Hy].
      * exact H2.
    + destruct (IH best) as (l1 & l2 & E & H1 & H2).
      set (m := min_from key best items) in *.
      destruct l1 as [|y l1].
      * simpl in E. injection E as E1 E2.
        exists [], (x :: items). split; [|split].
        -- simpl. rewrite <- E1. reflexivity.
        -- intros z [].
        -- intros z [Hz|Hz].
           ++ subst z. rewrite <- E1. lra.
           ++ apply H2. rewrite <- E2. exact Hz.
      * simpl in E. injection E as E1 E2. subst y.
        exists (best :: x :: l1), l2. split; [|split].
        -- simpl. rewrite E2. reflexivity.
        -- assert (Hmb : key m < key best) by (apply H1; left; reflexivity).
           intros z [Hz|[Hz|Hz]].
           ++ subst z. exact Hmb.
           ++ subst z. lra.
           ++ apply H1. right. exact Hz.
        -- exact H2.
Qed.

Lemma seq_split_order (l1 l2 : list nat) (m a n : nat) :
  seq a n = l1 ++ m :: l2 ->
  (forall x, In x l1 -> (x < m)%nat) /\ (forall x, In x l2 -> (m < x)%nat) /\
  (a <= m < a + n)%nat.
Proof.
  revert a n. induction l1 as [|y l1 IH]; intros a n E.
  - destruct n as [|n]; [discriminate|]. simpl in E. injection E as E1 E2.
    subst m. split; [intros x []|]. split; [|lia].
    intros x Hx. rewrite <- E2 in Hx. apply in_seq in Hx. lia.
  - destruct n as [|n]; [discriminate|]. simpl in E. injection E as E1 E2.
    subst y. destruct (IH _ _ E2) as (H1 & H2 & H3).
    split; [|split; [exact H2|lia]].
    intros x [Hx|Hx]; [subst x; lia|apply H1; exact Hx].
Qed.

Lemma nearest_idx_spec (route_points : list point) (lat lon : R) :
  route_points <> [] ->
  exists i,
    nearest_idx route_points lat lon = Ok i /\
    (i < List.length route_points)%nat /\
    (forall j, (j < List.length route_points)%nat ->
       distance_to route_points lat lon i <= distance_to route_points lat lon j) /\
    (forall j, (j < i)%nat ->
       distance_to route_points lat lon i < distance_to route_points lat lon j).
Proof.
  intros Hne. unfold nearest_idx. rewrite range_0.
  destruct route_points as [|pt pts] eqn:Ert; [contradiction|].
  rewrite <- Ert in *. 
  assert (Hlen : List.length route_points = S (List.length pts))
    by (rewrite Ert; reflexivity).
  rewrite Hlen. simpl seq. unfold py_min.
  fold (distance_to route_points lat lon).
  set (key := fun i => haversine lat lon (fst (nth i route_points (0, 0)))
                                 (snd (nth i route_points (0, 0)))).
  destruct (min_from_split key (seq 1 (List.length pts)) 0%nat)
    as (l1 & l2 & E & H1 & H2).
  set (m := min_from key 0%nat (seq 1 (List.length pts))) in *.
  change (0%nat :: seq 1 (List.length pts))
    with (seq 0 (S (List.length pts))) in E.
  destruct (seq_split_order _ _ _ _ _ E) as (O1 & O2 & O3).
  exists m. split; [reflexivity|]. split; [lia|]. split.
  - intros j Hj.
    assert (Hin : In j (seq 0 (S (List.length pts)))) by (apply in_seq; lia).
    rewrite E in Hin. apply in_app_or in Hin.
    change (key m <= key j).
    destruct Hin as [Hin|[Hin|Hin]].
    + left. apply H1. exact Hin.
    + subst j. lra.
    + apply H2. exact Hin.
  - intros j Hj.
    assert (Hin : In j (seq 0 (S (List.length pts)))) by (apply in_seq; lia).
    rewrite E in Hin. apply in_app_or in Hin.
    change (key m < key j).
    destruct Hin as [Hin|[Hin|Hin]].
    + apply H1. exact Hin.
    + subst j. lia.
    + apply O2 in Hin. lia.
Qed.

(** ** The loops of [extract_named_waypoints] *)

Lemma add_segments_ok (route_points : list point) (js : list nat) (total : R) :
  (forall j, In j js -> (j + 1 < List.length route_points)%nat) ->
  for_each (add_segment route_points) js total
  = Ok (total + Rsum (map (segment route_points) js)).
Proof.
  revert total. induction js as [|j js IH]; intros total H; simpl.
  - f_equal. ring.
  - assert (Hj : (j + 1 < List.length route_points)%nat)
      by (apply H; left; reflexivity).
    unfold add_segment at 1.
    rewrite (lookup_ok route_points j (0, 0)) by lia.
    rewrite (lookup_ok route_points (j + 1) (0, 0)) by lia.
    simpl. rewrite IH by (intros k Hk; apply H; right; exact Hk).
    f_equal. unfold segment at 2. ring.
Qed.

Lemma leg_total_ok (route_points : list point) (p q : nat) :
  (q < List.length route_points)%nat ->
  for_each (add_segment route_points) (range p q) 0
  = Ok (polyline_distance route_points p q).
Proof.
  intros Hq. rewrite add_segments_ok.
  - unfold polyline_distance. f_equal. ring.
  - intros j Hj. apply in_range in Hj. lia.
Qed.

Section Legs.

Variable GridRef : Type.
Variable route_points : list point.
Variable named_points : list (named_point GridRef).
Variable elevations : list (R * R * R).
Variable indices : list nat.

Hypothesis indices_length : List.length indices = List.length named_points.
Hypothesis indices_valid :
  forall p, In p indices -> (p < List.length route_points)%nat.

Lemma lookup_named (i : nat) :
  (i < List.length named_points)%nat ->
  exists a, lookup named_points i = Ok a /\
            np_lat a = nth i (map np_lat named_points) 0 /\
            np_lon a = nth i (map np_lon named_points) 0.
Proof.
  intros Hi. unfold lookup.
  destruct (nth_error named_points i) as [a|] eqn:E.
  - exists a. split; [reflexivity|].
    split; symmetry; apply nth_error_nth; rewrite nth_error_map, E; reflexivity.
  - apply nth_error_None in E. lia.
Qed.

Lemma leg_body_prefix (i : nat) (st : legs) :
  (i + 1 < List.length named_points)%nat ->
  exists a b,
    lookup named_points i = Ok a /\ lookup named_points (i + 1) = Ok b /\
    leg_body route_points named_points elevations indices i st
    = (e1 <- lookup elevations (i + 1) ;;
       e0 <- lookup elevations i ;;
       Ok {| distances := distances st ++ [leg_distance route_points indices i];
             bearings := bearings st ++ [leg_bearing GridRef named_points i];
             ascents := ascents st ++ [VInt (Py.round (snd e1 - snd e0))] |}).
Proof.
  intros Hi.
  destruct (lookup_named i) as (a & Ea & Ha1 & Ha2); [lia|].
  destruct (lookup_named (i + 1)) as (b & Eb & Hb1 & Hb2); [lia|].
  exists a, b. split; [exact Ea|]. split; [exact Eb|].
  unfold leg_body.
  rewrite (lookup_ok indices i 0%nat) by lia.
  rewrite (lookup_ok indices (i + 1) 0%nat) by lia.
  cbv beta iota delta [bind].
  rewrite leg_total_ok
    by (apply indices_valid, nth_In; lia).
  rewrite Ea, Eb.
  unfold leg_distance, leg_bearing.
  rewrite Ha1, Ha2, Hb1, Hb2. reflexivity.
Qed.

Lemma leg_body_ok (i : nat) (st : legs) :
  (i + 1 < List.length named_points)%nat ->
  (i + 1 < List.length elevations)%nat ->
  leg_body route_points named_points elevations indices i st
  = Ok {| distances := distances st ++ [leg_distance route_points indices i];
          bearings := bearings st ++ [leg_bearing GridRef named_points i];
          ascents := ascents st ++ [leg_ascent elevations i] |}.
Proof.
  intros Hi He.
  destruct (leg_body_prefix i st Hi) as (a & b & _ & _ & E). rewrite E.
  rewrite (lookup_ok elevations (i + 1) (0, 0, 0)) by lia.
  rewrite (lookup_ok elevations i (0, 0, 0)) by lia.
  reflexivity.
Qed.

Lemma leg_body_index_error (i : nat) (st : legs) :
  (i + 1 < List.length named_points)%nat ->
  (List.length elevations <= i + 1)%nat ->
  leg_body route_points named_points elevations indices i st = Raise IndexError.
Proof.
  intros Hi He.
  destruct (leg_body_prefix i st Hi) as (a & b & _ & _ & E). rewrite E.
  rewrite lookup_out by lia. reflexivity.
Qed.

Lemma leg_loop_ok (k : nat) (st : legs) :
  (k = 0 \/ (k + 1 <= List.length named_points /\
             k + 1 <= List.length elevations))%nat ->
  for_each (leg_body route_points named_points elevations indices)
           (range 0 k) st
  = Ok {| distances := distances st ++ map (leg_distance route_points indices) (seq 0 k);
          bearings := bearings st ++ map (leg_bearing GridRef named_points) (seq 0 k);
          ascents := ascents st ++ map (leg_ascent elevations) (seq 0 k) |}.
Proof.
  rewrite range_0.
  induction k as [|k IH]; intros Hk.
  - simpl. rewrite !app_nil_r. destruct st; reflexivity.
  - rewrite seq_S, for_each_app. simpl Nat.add.
    rewrite IH by lia. simpl bind. simpl for_each.
    rewrite leg_body_ok by lia. simpl.
    rewrite !map_app, !app_assoc. reflexivity.
Qed.

Lemma leg_loop_index_error (st : legs) :
  (2 <= List.length named_points)%nat ->
  (List.length elevations < List.length named_points)%nat ->
  for_each (leg_body route_points named_points elevations indices)
           (range 0 (List.length named_points - 1)) st
  = Raise IndexError.
Proof.
  intros Hn He.
  set (k := (List.length elevations - 1)%nat).
  assert (Hsplit : range 0 (List.length named_points - 1)
                   = range 0 k ++ k :: seq (S k) (List.length named_points - 1 - S k)).
  { rewrite !range_0.
    replace (List.length named_points - 1)%nat
      with (k + S (List.length named_points - 1 - S k))%nat at 1 by lia.
    rewrite seq_app. reflexivity. }
  rewrite Hsplit, for_each_app.
  rewrite leg_loop_ok by lia.
  simpl. rewrite leg_body_index_error by lia. reflexivity.
Qed.

End Legs.

Lemma nearest_idx_matched (route_points : list point) (lat lon : R) :
  route_points <> [] ->
  nearest_idx route_points lat lon = Ok (matched_index route_points lat lon).
Proof.
  intros Hne. unfold matched_index.
  destruct (nearest_idx_spec route_points lat lon Hne) as (i & E & _).
  rewrite E. reflexivity.
Qed.

Lemma matched_index_valid (route_points : list point) (lat lon : R) :
  route_points <> [] ->
  (matched_index route_points lat lon < List.length route_points)%nat.
Proof.
  intros Hne. unfold matched_index.
  destruct (nearest_idx_spec route_points lat lon Hne) as (i & E & Hi & _).
  rewrite E. exact Hi.
Qed.

Lemma lookup_framed {A : Type} (b : A) (f : nat -> A) (m i : nat) :
  (i <= m)%nat ->
  lookup (b :: map f (seq 0 m) ++ [b]) i
  = Ok (if (0 <? i)%nat then f (i - 1)%nat else b).
Proof.
  intros Hi. destruct i as [|j]; [reflexivity|].
  unfold lookup. simpl nth_error.
  rewrite nth_error_app1 by (rewrite length_map, length_seq; lia).
  rewrite nth_error_map, nth_error_seq.
  destruct (Nat.ltb_spec j m) as [_|H]; [|lia].
  simpl. rewrite Nat.sub_0_r. reflexivity.
Qed.

Lemma lookup_mapped {A : Type} (f : nat -> A) (m j : nat) :
  (j < m)%nat -> lookup (map f (seq 0 m)) j = Ok (f j).
Proof.
  intros Hj. unfold lookup.
  rewrite nth_error_map, nth_error_seq.
  destruct (Nat.ltb_spec j m) as [_|H]; [|lia]. reflexivity.
Qed.

Lemma in_enumerate {A : Type} (l : list A) (i : nat) (x : A) :
  In (i, x) (enumerate l) -> (i < List.length l)%nat.
Proof.
  unfold enumerate. intros H. apply in_combine_l in H.
  apply in_seq in H. lia.
Qed.

Section Rows.

Variable GridRef : Type.
Variable str_grid : GridRef -> string.
Variable route_points : list point.
Variable named_points : list (named_point GridRef).
Variable elevations : list (R * R * R).

Hypothesis route_nonempty : route_points <> [].

Lemma build_rows_ok :
  (List.length named_points <= 1 \/
   List.length named_points <= List.length elevations)%nat ->
  build_rows str_grid route_points named_points elevations
  = Ok (map (row_of GridRef str_grid route_points named_points elevations)
            (enumerate named_points)).
Proof.
  intros Hlen. unfold build_rows.
  rewrite (mapM_ok _ (fun p => matched_index route_points (np_lat p) (np_lon p)))
    by (intros p _; apply nearest_idx_matched, route_nonempty).
  fold (matched_indices GridRef route_points named_points). cbv beta iota delta [bind].
  assert (Hl : List.length (matched_indices GridRef route_points named_points) = List.length named_points)
    by (unfold matched_indices; apply length_map).
  rewrite Hl.
  rewrite (leg_loop_ok GridRef route_points named_points elevations
             (matched_indices GridRef route_points named_points) Hl).
  - cbn [distances bearings ascents app].
    apply mapM_ok. intros [i p] Hin. apply in_enumerate in Hin.
    unfold emit_row, row_of. cbn [distances bearings ascents].
    rewrite !lookup_framed by lia.
    destruct (Nat.ltb_spec 0 i) as [Hi|Hi].
    + rewrite lookup_mapped by lia. reflexivity.
    + reflexivity.
  - intros p Hp. unfold matched_indices in Hp. apply in_map_iff in Hp.
    destruct Hp as (x & <- & _). apply matched_index_valid, route_nonempty.
  - lia.
Qed.

Lemma build_rows_index_error :
  (2 <= List.length named_points)%nat ->
  (List.length elevations < List.length named_points)%nat ->
  build_rows str_grid route_points named_points elevations = Raise IndexError.
Proof.
  intros Hn He. unfold build_rows.
  rewrite (mapM_ok _ (fun p => matched_index route_points (np_lat p) (np_lon p)))
    by (intros p _; apply nearest_idx_matched, route_nonempty).
  fold (matched_indices GridRef route_points named_points). cbv beta iota delta [bind].
  assert (Hl : List.length (matched_indices GridRef route_points named_points) = List.length named_points)
    by (unfold matched_indices; apply length_map).
  rewrite Hl.
  rewrite (leg_loop_index_error GridRef route_points named_points elevations
             (matched_indices GridRef route_points named_points) Hl); [reflexivity| |lia|lia].
  intros p Hp. unfold matched_indices in Hp. apply in_map_iff in Hp.
  destruct Hp as (x & <- & _). apply matched_index_valid, route_nonempty.
Qed.

End Rows.

(** ** [enumerate] *)

Lemma nth_error_combine_seq {A : Type} (l : list A) (a i : nat) (x : A) :
  nth_error l i = Some x ->
  nth_error (combine (seq a (List.length l)) l) i = Some ((a + i)%nat, x).
Proof.
  revert a i. induction l as [|y l IH]; intros a i H.
  - destruct i; discriminate.
  - destruct i as [|i]; simpl in *.
    + injection H as ->. rewrite Nat.add_0_r. reflexivity.
    + rewrite (IH (S a) i H). f_equal. f_equal. lia.
Qed.

Lemma nth_error_enumerate {A : Type} (l : list A) (i : nat) (x : A) :
  nth_error l i = Some x -> nth_error (enumerate l) i = Some (i, x).
Proof. intros H. apply (nth_error_combine_seq l 0 i x H). Qed.

Lemma map_fst_combine_seq {A : Type} (l : list A) (a : nat) :
  map fst (combine (seq a (List.length l)) l) = seq a (List.length l).
Proof.
  revert a. induction l as [|y l IH]; intros a; simpl; [reflexivity|].
  rewrite IH. reflexivity.
Qed.

Lemma length_enumerate {A : Type} (l : list A) :
  List.length (enumerate l) = List.length l.
Proof.
  unfold enumerate. rewrite length_combine, length_seq. lia.
Qed.

Lemma enumerate_cons {A : Type} (x : A) (l : list A) :
  exists rest, enumerate (x :: l) = (0%nat, x) :: rest.
Proof. unfold enumerate. simpl. eexists. reflexivity. Qed.


(** ** The named points *)

Section NamedPoints.

Variable GridRef : Type.
Variable latlong2grid : R -> R -> GridRef.

Lemma rename_last_app (front : list (named_point GridRef))
    (p : named_point GridRef) :
  rename_last (front ++ [p]) = front ++ [renamed GridRef p].
Proof.
  induction front as [|x front IH]; [reflexivity|].
  simpl app. simpl rename_last. rewrite IH.
  destruct (front ++ [p]) eqn:E; [|reflexivity].
  destruct front; discriminate.
Qed.

Lemma rename_last_cons (x y : named_point GridRef)
    (l : list (named_point GridRef)) :
  rename_last (x :: y :: l) = x :: rename_last (y :: l).
Proof. reflexivity. Qed.

Lemma length_rename_last (l : list (named_point GridRef)) :
  List.length (rename_last l) = List.length l.
Proof.
  induction l as [|x l IH]; [reflexivity|].
  destruct l as [|y l]; [reflexivity|].
  rewrite rename_last_cons. simpl List.length in *. rewrite IH. reflexivity.
Qed.

End NamedPoints.

Lemma results_as_tuples (results : list (R * R * R)) :
  map (fun r : R * R * R => let '(la, lo, el) := r in (la, lo, el)) results
  = results.
Proof.
  induction results as [|[[la lo] el] results IH]; simpl; [reflexivity|].
  rewrite IH. reflexivity.
Qed.

Lemma round_ndigits_0 (n : nat) : Py.round_ndigits 0 n = 0.
Proof.
  unfold Py.round_ndigits. rewrite Rmult_0_l, (round_IZR 0).
  unfold Rdiv. apply Rmult_0_l.
Qed.

Lemma polyline_distance_backwards (route_points : list point) (p q : nat) :
  (q <= p)%nat -> polyline_distance route_points p q = 0.
Proof.
  intros H. unfold polyline_distance. rewrite range_empty by exact H.
  reflexivity.
Qed.

Lemma named_points_split (GridRef : Type) (latlong2grid : R -> R -> GridRef)
    (gpx : GPX) :
  select_route_points gpx <> [] ->
  exists start pts,
    select_route_points gpx = start :: pts /\
    collect_named_points latlong2grid gpx
    = rename_last
        (("START"%string, EmptyString, fst start, snd start,
          latlong2grid (fst start) (snd start))
         :: waypoint_entries latlong2grid (gpx_waypoints gpx)).
Proof.
  intros Hne. unfold collect_named_points.
  destruct (select_route_points gpx) as [|start pts]; [contradiction|].
  exists start, pts. split; reflexivity.
Qed.

Section Conversion.

Variable GridRef : Type.
Variable latlong2grid : R -> R -> GridRef.
Variable str_grid : GridRef -> string.
Variable gpxpy_parse : string -> result GPX.
Variable requests_post : list point -> result (list (R * R * R)).

Variable gpx_file : string.
Variable gpx : GPX.
Variable elevations : list (R * R * R).

Hypothesis parsed : gpxpy_parse gpx_file = Ok gpx.
Hypothesis looked_up :
  requests_post (locations_of (collect_named_points latlong2grid gpx))
  = Ok elevations.

Lemma extract_after_lookup :
  extract_named_waypoints latlong2grid str_grid gpxpy_parse requests_post
    gpx_file
  = ([Open gpx_file; Post (locations_of (collect_named_points latlong2grid gpx))],
     build_rows str_grid (select_route_points gpx)
       (collect_named_points latlong2grid gpx) elevations).
Proof.
  unfold extract_named_waypoints. rewrite parsed.
  unfold get_elevations_post. rewrite looked_up.
  simpl. rewrite results_as_tuples. reflexivity.
Qed.

Hypothesis has_polyline : select_route_points gpx <> [].

Hypothesis enough_elevations :
  (List.length (collect_named_points latlong2grid gpx) <= 1 \/
   List.length (collect_named_points latlong2grid gpx)
   <= List.length elevations)%nat.

Lemma extract_rows :
  snd (extract_named_waypoints latlong2grid str_grid gpxpy_parse
         requests_post gpx_file)
  = Ok (map (row_of GridRef str_grid (select_route_points gpx)
               (collect_named_points latlong2grid gpx) elevations)
            (enumerate (collect_named_points latlong2grid gpx))).
Proof.
  rewrite extract_after_lookup. simpl snd.
  apply build_rows_ok; assumption.
Qed.

End Conversion.

Lemma nth_error_rows (GridRef : Type) (mk : nat * named_point GridRef -> Row)
    (named_points : list (named_point GridRef)) (i : nat)
    (p : named_point GridRef) :
  nth_error named_points i = Some p ->
  nth_error (map mk (enumerate named_points)) i = Some (mk (i, p)).
Proof.
  intros H. rewrite nth_error_map, (nth_error_enumerate _ _ _ H). reflexivity.
Qed.

Lemma nth_matched_indices (GridRef : Type) (route_points : list point)
    (named_points : list (named_point GridRef)) (i p : nat)
    (a : named_point GridRef) :
  nth_error named_points i = Some a ->
  nearest_idx route_points (np_lat a) (np_lon a) = Ok p ->
  nth i (matched_indices GridRef route_points named_points) 0%nat = p.
Proof.
  intros Ha Hp. apply nth_error_nth. unfold matched_indices.
  rewrite nth_error_map, Ha. simpl. unfold matched_index. rewrite Hp.
  reflexivity.
Qed.

Lemma deltas_of_rows (GridRef : Type) (str_grid : GridRef -> string)
    (route_points : list point) (named_points : list (named_point GridRef))
    (elevations : list (R * R * R)) :
  map delta_of
    (map (row_of GridRef str_grid route_points named_points elevations)
         (enumerate named_points))
  = map (delta_at elevations) (seq 0 (List.length named_points)).
Proof.
  rewrite map_map.
  rewrite <- (map_fst_combine_seq named_points 0), map_map.
  apply map_ext. intros [i p]. unfold delta_of, delta_at, row_of. simpl.
  destruct (0 <? i)%nat eqn:E; [|reflexivity].
  unfold leg_ascent. simpl.
  apply Nat.ltb_lt in E. replace (i - 1 + 1)%nat with i by lia. reflexivity.
Qed.

Lemma fold_add_snoc (l : list Z) (x : Z) :
  fold_right Z.add 0%Z (l ++ [x]) = (fold_right Z.add 0%Z l + x)%Z.
Proof.
  induction l as [|y l IH]; simpl; [lia|]. rewrite IH. lia.
Qed.

Lemma integer_deltas_telescope (elevations : list (R * R * R)) (k : nat) :
  (forall i, (i <= k)%nat -> exists z, elevation elevations i = IZR z) ->
  IZR (fold_right Z.add 0%Z (map (delta_at elevations) (seq 0 (S k))))
  = elevation elevations k - elevation elevations 0.
Proof.
  induction k as [|k IH]; intros Hint.
  - simpl. unfold delta_at. simpl. lra.
  - rewrite seq_S, map_app. cbn [map]. rewrite fold_add_snoc, plus_IZR.
    rewrite IH by (intros i Hi; apply Hint; lia).
    unfold delta_at at 1. simpl Nat.add.
    replace (0 <? S k)%nat with true by reflexivity.
    replace (S k - 1)%nat with k by lia.
    destruct (Hint (S k)) as [z1 E1]; [lia|].
    destruct (Hint k) as [z0 E0]; [lia|].
    rewrite E1, E0, <- minus_IZR, round_IZR, minus_IZR. lra.
Qed.


Lemma no_waypoint_entries (GridRef : Type) (latlong2grid : R -> R -> GridRef)
    (wpts : list GPXWaypoint) :
  (forall w, In w wpts -> truthy (wpt_name w) = false) ->
  waypoint_entries latlong2grid wpts = [].
Proof.
  induction wpts as [|w wpts IH]; intros H; [reflexivity|].
  simpl. rewrite (H w) by (left; reflexivity).
  apply IH. intros w' Hw'. apply H. right. exact Hw'.
Qed.

Section Claims.

Variable GridRef : Type.
Variable latlong2grid : R -> R -> GridRef.
Variable str_grid : GridRef -> string.
Variable gpxpy_parse : string -> result GPX.
Variable requests_post : list point -> result (list (R * R * R)).


(** C1: for every pair of consecutive matched waypoints with polyline
    indices [(p, q)], the emitted leg distance (the distance field of the
    later waypoint's row) equals the sum of the haversine distances over
    every adjacent polyline pair from index [p] up to [q], rounded to 2
    decimal places; when [q < p] the range is empty and the leg distance
    is 0. *)
Theorem leg_distance_is_rounded_polyline_sum
    (gpx_file : string) (gpx : GPX) (elevations : list (R * R * R)) :
  gpxpy_parse gpx_file = Ok gpx ->
  select_route_points gpx <> [] ->
  requests_post (locations_of (collect_named_points latlong2grid gpx)) = Ok elevations ->
  (List.length (collect_named_points latlong2grid gpx) <= 1 \/
   List.length (collect_named_points latlong2grid gpx)
   <= List.length elevations)%nat ->
  exists rows,
    snd (extract_named_waypoints latlong2grid str_grid gpxpy_parse
           requests_post gpx_file) = Ok rows /\
    forall (i : nat) (a b : named_point GridRef) (p q : nat),
      nth_error (collect_named_points latlong2grid gpx) i = Some a ->
      nth_error (collect_named_points latlong2grid gpx) (i + 1) = Some b ->
      nearest_idx (select_route_points gpx) (np_lat a) (np_lon a) = Ok p ->
      nearest_idx (select_route_points gpx) (np_lat b) (np_lon b) = Ok q ->
      exists r,
        nth_error rows (i + 1) = Some r /\
        distance_from_last_km r
        = VFloat (Py.round_ndigits
                    (polyline_distance (select_route_points gpx) p q) 2) /\
        ((q < p)%nat -> distance_from_last_km r = VFloat 0).
Proof.
  intros Hparse Hroute Hpost Hlen.
  eexists. split.
  - apply (extract_rows GridRef latlong2grid str_grid gpxpy_parse
             requests_post gpx_file gpx elevations Hparse Hpost Hroute Hlen).
  - intros i a b p q Ha Hb Hp Hq.
    eexists. split.
    + apply nth_error_rows. exact Hb.
    + unfold row_of. cbn [distance_from_last_km].
      replace (0 <? i + 1)%nat with true by (symmetry; apply Nat.ltb_lt; lia).
      replace (i + 1 - 1)%nat with i by lia.
      unfold leg_distance.
      rewrite (nth_matched_indices _ _ _ _ _ _ Ha Hp).
      rewrite (nth_matched_indices _ _ _ _ _ _ Hb Hq).
      split; [reflexivity|].
      intros Hqp. rewrite polyline_distance_backwards by lia.
      rewrite round_ndigits_0. reflexivity.
Qed.

(** C2: for every named waypoint position and every non-empty polyline,
    the matched polyline index is an index minimising the haversine distance
    from the waypoint to the polyline points, and among the indices that
    attain the minimum it is the smallest. *)
Theorem nearest_idx_is_first_minimum
    (route_points : list point) (lat lon : R) :
  route_points <> [] ->
  exists i,
    nearest_idx route_points lat lon = Ok i /\
    (i < List.length route_points)%nat /\
    (forall j, (j < List.length route_points)%nat ->
       distance_to route_points lat lon i <= distance_to route_points lat lon j) /\
    (forall j, (j < List.length route_points)%nat ->
       distance_to route_points lat lon j = distance_to route_points lat lon i ->
       (i <= j)%nat).
Proof.
  intros Hne.
  destruct (nearest_idx_spec route_points lat lon Hne) as (i & E & Hi & Hmin & Hfirst).
  exists i. repeat split; try assumption.
  intros j _ Heq. destruct (Nat.le_gt_cases i j) as [H|H]; [exact H|].
  specialize (Hfirst j H). lra.
Qed.




(** C6, as the code has it: for every converted file the number of emitted
    elevation-delta entries equals the named-waypoint count and the first
    row's delta is blank; when the elevations of the named points are whole
    numbers, the sum of the emitted deltas equals the last named waypoint's
    elevation minus the first one's. *)
Theorem integer_elevation_deltas_sum_to_total_change
    (gpx_file : string) (gpx : GPX) (elevations : list (R * R * R)) :
  gpxpy_parse gpx_file = Ok gpx ->
  select_route_points gpx <> [] ->
  requests_post (locations_of (collect_named_points latlong2grid gpx))
  = Ok elevations ->
  (List.length (collect_named_points latlong2grid gpx) <= 1 \/
   List.length (collect_named_points latlong2grid gpx)
   <= List.length elevations)%nat ->
  exists (first : Row) (rest : list Row),
    snd (extract_named_waypoints latlong2grid str_grid gpxpy_parse
           requests_post gpx_file) = Ok (first :: rest) /\
    List.length (map ascent (first :: rest))
    = List.length (collect_named_points latlong2grid gpx) /\
    ascent first = VStr EmptyString /\
    ((forall i, (i < List.length (collect_named_points latlong2grid gpx))%nat ->
        exists z, elevation elevations i = IZR z) ->
     IZR (sum_of_deltas (first :: rest))
     = elevation elevations
         (List.length (collect_named_points latlong2grid gpx) - 1)
       - elevation elevations 0).
Proof.
  intros Hparse Hroute Hpost Hlen.
  pose proof (extract_rows GridRef latlong2grid str_grid gpxpy_parse
                requests_post gpx_file gpx elevations Hparse Hpost Hroute
                Hlen) as Hrows.
  destruct (named_points_split GridRef latlong2grid gpx Hroute)
    as (start & pts & Ert & Enp).
  remember (collect_named_points latlong2grid gpx) as nps eqn:Enps.
  set (mk := row_of GridRef str_grid (select_route_points gpx) nps elevations)
    in *.
  assert (Hn : exists k, List.length nps = S k).
  { rewrite Enp, length_rename_last. simpl. eexists. reflexivity. }
  destruct Hn as [k Hk].
  assert (Hen : exists x erest, enumerate nps = (0%nat, x) :: erest).
  { clear - Hk. destruct nps as [|x l]; [discriminate|].
    destruct (enumerate_cons x l) as (erest & Ee). eauto. }
  destruct Hen as (x & erest & Ee).
  exists (mk (0%nat, x)), (map mk erest).
  assert (Hlist : map mk (enumerate nps) = mk (0%nat, x) :: map mk erest)
    by (rewrite Ee; reflexivity).
  rewrite <- Hlist.
  split; [exact Hrows|].
  split; [rewrite !length_map; apply length_enumerate|].
  split; [reflexivity|].
  intros Hint. unfold sum_of_deltas, mk. rewrite deltas_of_rows, Hk.
  replace (S k - 1)%nat with k by lia.
  apply integer_deltas_telescope. intros i Hi. apply Hint. lia.
Qed.

(** C10: for every GPX input with a non-empty polyline and no named GPX
    waypoint, the output has exactly one row, named END: the synthetic START
    entry itself is renamed, and the name START does not appear. *)
Theorem route_without_named_waypoints_yields_one_end_row
    (gpx_file : string) (gpx : GPX) (elevations : list (R * R * R)) :
  gpxpy_parse gpx_file = Ok gpx ->
  select_route_points gpx <> [] ->
  (forall w, In w (gpx_waypoints gpx) -> truthy (wpt_name w) = false) ->
  requests_post (locations_of (collect_named_points latlong2grid gpx))
  = Ok elevations ->
  exists row,
    snd (extract_named_waypoints latlong2grid str_grid gpxpy_parse
           requests_post gpx_file) = Ok [row] /\
    name row = "END"%string /\
    (forall r, In r [row] -> name r <> "START"%string).
Proof.
  intros Hparse Hroute Hnone Hpost.
  destruct (named_points_split GridRef latlong2grid gpx Hroute)
    as (start & pts & Ert & Enp).
  rewrite (no_waypoint_entries GridRef latlong2grid _ Hnone) in Enp.
  cbn [rename_last] in Enp.
  pose proof (extract_rows GridRef latlong2grid str_grid gpxpy_parse
                requests_post gpx_file gpx elevations Hparse Hpost Hroute)
    as Hrows.
  rewrite Enp in Hrows. specialize (Hrows (or_introl (le_n 1))).
  eexists. split; [exact Hrows|].
  split; [reflexivity|].
  intros r [<-|[]]. cbn. discriminate.
Qed.

End Claims.

(** ** The worksheet *)

Lemma fill_cells (column : nat) (formula : nat -> string) (rows_ : list nat)
    (ws : worksheet) (r c : nat) :
  fold_left (fun ws row => ws_set row column (VStr (formula row)) ws) rows_ ws
    r c
  = if ((c =? column) && existsb (Nat.eqb r) rows_)%nat
    then Some (VStr (formula r)) else ws r c.
Proof.
  revert ws. induction rows_ as [|row rows_ IH]; intros ws; simpl.
  - rewrite andb_false_r. reflexivity.
  - rewrite IH. unfold ws_set.
    destruct (c =? column)%nat eqn:Ec; simpl.
    + destruct (existsb (Nat.eqb r) rows_) eqn:Er.
      * rewrite orb_true_r. reflexivity.
      * rewrite orb_false_r. rewrite andb_true_r.
        destruct (r =? row)%nat eqn:Err; [|reflexivity].
        apply Nat.eqb_eq in Err. subst row. reflexivity.
    + rewrite andb_false_r. reflexivity.
Qed.

Lemma fill_column_in (column : nat) (formula : nat -> string) (n : nat)
    (ws : worksheet) (r : nat) :
  (2 <= r < n + 2)%nat ->
  fill_column column formula n ws r column = Some (VStr (formula r)).
Proof.
  intros Hr. unfold fill_column. rewrite fill_cells, Nat.eqb_refl. simpl.
  replace (existsb (Nat.eqb r) (range 2 (n + 2))) with true; [reflexivity|].
  symmetry. apply existsb_exists. exists r. split; [|apply Nat.eqb_refl].
  unfold range. apply in_seq. lia.
Qed.

Lemma fill_column_other (column : nat) (formula : nat -> string) (n : nat)
    (ws : worksheet) (r c : nat) :
  c <> column -> fill_column column formula n ws r c = ws r c.
Proof.
  intros Hc. unfold fill_column. rewrite fill_cells.
  apply Nat.eqb_neq in Hc. rewrite Hc. reflexivity.
Qed.

Lemma rest_cell (rows : list Row) (r : nat) :
  (2 <= r < List.length rows + 2)%nat ->
  build_worksheet rows r 7%nat = Some (VStr (rest_formula r)).
Proof.
  intros Hr. unfold build_worksheet.
  rewrite fill_column_other by lia.
  unfold ws_set at 1. replace ((r =? 1) && (7 =? 8))%nat with false
    by (rewrite andb_false_r; reflexivity).
  unfold insert_cols at 1. cbn [Nat.ltb Nat.leb].
  apply fill_column_in. exact Hr.
Qed.

(** C5, as the code has it: in the emitted worksheet the Rest column
    (column 7) holds, in every data row, a formula that evaluates to the
    empty text for the first data row (row 2) and to 10 for every other
    data row. *)
Theorem rest_formula_is_empty_text_then_10 (rows : list Row) (r : nat) :
  (2 <= r < List.length rows + 2)%nat ->
  exists f,
    build_worksheet rows r 7%nat = Some (VStr f) /\
    eval_literal_formula f
    = Some (if (r =? 2)%nat then VStr EmptyString else VInt 10).
Proof.
  intros Hr. exists (rest_formula r). split; [apply rest_cell; exact Hr|].
  unfold rest_formula. destruct (r =? 2)%nat; reflexivity.
Qed.

(** ** [main] *)

Section Main.

Variable GridRef : Type.
Variable latlong2grid : R -> R -> GridRef.
Variable str_grid : GridRef -> string.
Variable gpxpy_parse : string -> result GPX.
Variable requests_post : list point -> result (list (R * R * R)).
Variable write_xlsx : string -> worksheet -> result unit.

Lemma extract_events (gpx_file : string) (path : string) (ws : worksheet) :
  ~ In (WriteXlsx path ws)
       (fst (extract_named_waypoints latlong2grid str_grid gpxpy_parse
               requests_post gpx_file)).
Proof.
  unfold extract_named_waypoints.
  destruct (gpxpy_parse gpx_file) as [gpx|e]; simpl.
  - destruct (get_elevations_post _ _) as [els|e]; simpl;
      intros [H|[H|[]]]; discriminate.
  - intros [H|[]]; discriminate.
Qed.

Lemma main_failed_extraction (prog inp : string) (e : exn) :
  snd (extract_named_waypoints latlong2grid str_grid gpxpy_parse
         requests_post inp) = Raise e ->
  exit_code (main latlong2grid str_grid gpxpy_parse requests_post write_xlsx [prog; inp])
  = 1%Z /\
  ~ writes_file
      (main latlong2grid str_grid gpxpy_parse requests_post write_xlsx [prog; inp]).
Proof.
  intros Hfail. unfold main. cbn [List.length Nat.eqb negb nth].
  destruct (splitext inp) as [base ext].
  destruct (negb (lower ext =? ".gpx")%string).
  - split; [reflexivity|]. intros (path & ws & [H|[]]). discriminate.
  - pose proof (extract_events inp) as Hev.
    destruct (extract_named_waypoints _ _ _ _ inp) as [evs res].
    simpl in Hfail, Hev. subst res.
    assert (Hno : forall m, ~ writes_file {| exit_code := 1; events := evs ++ [PrintErr m] |}).
    { intros m (path & ws & Hin). simpl in Hin. apply in_app_or in Hin.
      destruct Hin as [Hin|[Hin|[]]]; [exact (Hev path ws Hin)|discriminate]. }
    destruct e; split; try reflexivity; apply Hno.
Qed.

Lemma main_converted (prog inp : string) (row : Row) (rows : list Row) :
  lower (snd (splitext inp)) = ".gpx"%string ->
  snd (extract_named_waypoints latlong2grid str_grid gpxpy_parse
         requests_post inp) = Ok (row :: rows) ->
  write_xlsx (fst (splitext inp) ++ ".xlsx")%string
    (build_worksheet (row :: rows)) = Ok tt ->
  exit_code
    (main latlong2grid str_grid gpxpy_parse requests_post write_xlsx
       [prog; inp]) = 0%Z /\
  writes_file
    (main latlong2grid str_grid gpxpy_parse requests_post write_xlsx
       [prog; inp]).
Proof.
  intros Hext Hok Hsave. unfold main. cbn [List.length Nat.eqb negb nth].
  destruct (splitext inp) as [base ext]. simpl in Hext, Hsave. rewrite Hext.
  cbn [String.eqb Ascii.eqb Bool.eqb negb].
  destruct (extract_named_waypoints _ _ _ _ inp) as [evs res].
  simpl in Hok. subst res. rewrite Hsave. split; [reflexivity|].
  eexists _, _. simpl. apply in_or_app. right. left. reflexivity.
Qed.

(** C8: for every invocation whose single argument's extension, compared
    case-insensitively, is not [.gpx], the program prints the
    expected-extension message and exits with code 1; nothing is opened,
    looked up or written. *)
Theorem wrong_extension_exits_before_conversion (prog inp : string) :
  lower (snd (splitext inp)) <> ".gpx"%string ->
  main latlong2grid str_grid gpxpy_parse requests_post write_xlsx [prog; inp]
  = {| exit_code := 1;
       events := [PrintOut (ExpectedGpx (snd (splitext inp)))] |} /\
  ~ writes_file
      (main latlong2grid str_grid gpxpy_parse requests_post write_xlsx [prog; inp]).
Proof.
  intros Hext.
  assert (E : main latlong2grid str_grid gpxpy_parse requests_post write_xlsx [prog; inp]
              = {| exit_code := 1;
                   events := [PrintOut (ExpectedGpx (snd (splitext inp)))] |}).
  { unfold main. cbn [List.length Nat.eqb negb nth].
    destruct (splitext inp) as [base ext]. simpl in Hext |- *.
    apply String.eqb_neq in Hext. rewrite Hext. reflexivity. }
  split; [exact E|]. rewrite E.
  intros (path & ws & [H|[]]). discriminate.
Qed.

Lemma build_rows_without_polyline (named_points : list (named_point GridRef))
    (elevations : list (R * R * R)) :
  named_points <> [] ->
  build_rows str_grid [] named_points elevations = Raise ValueError.
Proof.
  intros Hne. destruct named_points as [|p l]; [contradiction|]. reflexivity.
Qed.

Lemma lookup_failure_aborts (prog gpx_file : string) (gpx : GPX) :
  gpxpy_parse gpx_file = Ok gpx ->
  ((exists e,
      requests_post (locations_of (collect_named_points latlong2grid gpx))
      = Raise e) \/
   (exists elevations,
      requests_post (locations_of (collect_named_points latlong2grid gpx))
      = Ok elevations /\
      (List.length elevations
       < List.length (collect_named_points latlong2grid gpx))%nat /\
      (2 <= List.length (collect_named_points latlong2grid gpx))%nat)) ->
  (exists e,
     snd (extract_named_waypoints latlong2grid str_grid gpxpy_parse
            requests_post gpx_file) = Raise e) /\
  exit_code
    (main latlong2grid str_grid gpxpy_parse requests_post write_xlsx [prog; gpx_file])
  = 1%Z /\
  ~ writes_file
      (main latlong2grid str_grid gpxpy_parse requests_post write_xlsx [prog; gpx_file]).
Proof.
  intros Hparse Hcase.
  assert (Hfail : exists e,
             snd (extract_named_waypoints latlong2grid str_grid gpxpy_parse
                    requests_post gpx_file) = Raise e).
  { destruct Hcase as [(e & He)|(elevations & Hpost & Hshort & Htwo)].
    - exists e. unfold extract_named_waypoints. rewrite Hparse.
      unfold get_elevations_post. rewrite He. reflexivity.
    - rewrite (extract_after_lookup GridRef latlong2grid str_grid gpxpy_parse
                 requests_post gpx_file gpx elevations Hparse Hpost).
      simpl snd.
      destruct (select_route_points gpx) as [|pt pts] eqn:Ert.
      + exists ValueError. apply build_rows_without_polyline.
        intros E. rewrite E in Htwo. simpl in Htwo. lia.
      + exists IndexError. apply build_rows_index_error;
          [discriminate|exact Htwo|exact Hshort]. }
  split; [exact Hfail|].
  destruct Hfail as (e & He). apply (main_failed_extraction prog gpx_file e He).
Qed.

Lemma elevation_of_needed (needed surplus : list (R * R * R)) (i : nat) :
  (i < List.length needed)%nat ->
  elevation (needed ++ surplus) i = elevation needed i.
Proof.
  intros Hi. unfold elevation. rewrite app_nth1 by exact Hi. reflexivity.
Qed.

Lemma rows_of_needed_elevations (route_points : list point)
    (named_points : list (named_point GridRef))
    (needed surplus : list (R * R * R)) :
  (List.length named_points <= List.length needed)%nat ->
  map (row_of GridRef str_grid route_points named_points (needed ++ surplus))
      (enumerate named_points)
  = map (row_of GridRef str_grid route_points named_points needed)
        (enumerate named_points).
Proof.
  intros Hlen. apply map_ext_in. intros [i p] Hin.
  assert (Hi : (i < List.length named_points)%nat).
  { unfold enumerate in Hin. apply in_combine_l in Hin.
    apply in_seq in Hin. lia. }
  unfold row_of. destruct (Nat.ltb_spec 0 i) as [Hpos|Hzero]; [|reflexivity].
  unfold leg_ascent.
  replace (i - 1 + 1)%nat with i by lia.
  rewrite !elevation_of_needed by lia. reflexivity.
Qed.

Lemma rows_of_single_point (route_points : list point)
    (named_points : list (named_point GridRef))
    (elevations : list (R * R * R)) :
  (List.length named_points <= 1)%nat ->
  map (row_of GridRef str_grid route_points named_points elevations)
      (enumerate named_points)
  = map (row_of GridRef str_grid route_points named_points [])
        (enumerate named_points).
Proof.
  intros Hlen. apply map_ext_in. intros [i p] Hin.
  assert (Hi : (i < List.length named_points)%nat).
  { unfold enumerate in Hin. apply in_combine_l in Hin.
    apply in_seq in Hin. lia. }
  replace i with 0%nat by lia. reflexivity.
Qed.

(** C9, as the code has it: when the elevation lookup raises, or returns
    fewer elevations than there are named points while there are at least
    two named points, the extraction raises, the program exits with code 1
    and no file is written; elevations beyond the number of named points
    are ignored (the rows are those computed from the first elevations
    alone), and a single named point uses no elevation (the rows are those
    computed from no elevation at all, whatever the lookup returns). *)
Theorem short_lookup_aborts_and_surplus_is_ignored
    (prog gpx_file : string) (gpx : GPX) :
  gpxpy_parse gpx_file = Ok gpx ->
  (((exists e,
       requests_post (locations_of (collect_named_points latlong2grid gpx))
       = Raise e) \/
    (exists elevations,
       requests_post (locations_of (collect_named_points latlong2grid gpx))
       = Ok elevations /\
       (List.length elevations
        < List.length (collect_named_points latlong2grid gpx))%nat /\
       (2 <= List.length (collect_named_points latlong2grid gpx))%nat)) ->
   (exists e,
      snd (extract_named_waypoints latlong2grid str_grid gpxpy_parse
             requests_post gpx_file) = Raise e) /\
   exit_code
     (main latlong2grid str_grid gpxpy_parse requests_post write_xlsx
        [prog; gpx_file]) = 1%Z /\
   ~ writes_file
       (main latlong2grid str_grid gpxpy_parse requests_post write_xlsx
          [prog; gpx_file])) /\
  (forall needed surplus : list (R * R * R),
     requests_post (locations_of (collect_named_points latlong2grid gpx))
     = Ok (needed ++ surplus) ->
     select_route_points gpx <> [] ->
     List.length needed
     = List.length (collect_named_points latlong2grid gpx) ->
     exists rows,
       snd (extract_named_waypoints latlong2grid str_grid gpxpy_parse
              requests_post gpx_file) = Ok rows /\
       build_rows str_grid (select_route_points gpx)
         (collect_named_points latlong2grid gpx) needed = Ok rows /\
       List.length rows
       = List.length (collect_named_points latlong2grid gpx)) /\
  (forall elevations : list (R * R * R),
     requests_post (locations_of (collect_named_points latlong2grid gpx))
     = Ok elevations ->
     select_route_points gpx <> [] ->
     List.length (collect_named_points latlong2grid gpx) = 1%nat ->
     exists row,
       snd (extract_named_waypoints latlong2grid str_grid gpxpy_parse
              requests_post gpx_file) = Ok [row] /\
       build_rows str_grid (select_route_points gpx)
         (collect_named_points latlong2grid gpx) [] = Ok [row]).
Proof.
  intros Hparse. split; [|split].
  - intros Hcase. apply (lookup_failure_aborts prog gpx_file gpx Hparse Hcase).
  - intros needed surplus Hpost Hroute Hlen.
    assert (Henough :
              (List.length (collect_named_points latlong2grid gpx) <= 1 \/
               List.length (collect_named_points latlong2grid gpx)
               <= List.length (needed ++ surplus))%nat)
      by (right; rewrite length_app; lia).
    rewrite (extract_rows GridRef latlong2grid str_grid gpxpy_parse
               requests_post gpx_file gpx (needed ++ surplus) Hparse Hpost
               Hroute Henough).
    rewrite rows_of_needed_elevations by lia.
    eexists. split; [reflexivity|]. split.
    + apply build_rows_ok; [exact Hroute|right; lia].
    + rewrite length_map. apply length_enumerate.
  - intros elevations Hpost Hroute Hone.
    assert (Henough :
              (List.length (collect_named_points latlong2grid gpx) <= 1 \/
               List.length (collect_named_points latlong2grid gpx)
               <= List.length elevations)%nat) by (left; lia).
    rewrite (extract_rows GridRef latlong2grid str_grid gpxpy_parse
               requests_post gpx_file gpx elevations Hparse Hpost
               Hroute Henough).
    rewrite rows_of_single_point by lia.
    rewrite build_rows_ok by (try exact Hroute; left; lia).
    destruct (collect_named_points latlong2grid gpx) as [|p [|q l]];
      try discriminate.
    eexists. split; reflexivity.
Qed.

End Main.

Lemma extract_first_row (GridRef : Type) (latlong2grid : R -> R -> GridRef)
    (str_grid : GridRef -> string) (gpxpy_parse : string -> result GPX)
    (requests_post : list point -> result (list (R * R * R)))
    (gpx_file : string) (gpx : GPX) (elevations : list (R * R * R)) :
  gpxpy_parse gpx_file = Ok gpx ->
  requests_post (locations_of (collect_named_points latlong2grid gpx))
  = Ok elevations ->
  select_route_points gpx <> [] ->
  (List.length (collect_named_points latlong2grid gpx) <= 1 \/
   List.length (collect_named_points latlong2grid gpx)
   <= List.length elevations)%nat ->
  exists first rest,
    snd (extract_named_waypoints latlong2grid str_grid gpxpy_parse
           requests_post gpx_file) = Ok (first :: rest) /\
    List.length (first :: rest)
    = List.length (collect_named_points latlong2grid gpx) /\
    map delta_of (first :: rest)
    = map (delta_at elevations)
          (seq 0 (List.length (collect_named_points latlong2grid gpx))).
Proof.
  intros Hparse Hpost Hroute Hlen.
  pose proof (extract_rows GridRef latlong2grid str_grid gpxpy_parse
                requests_post gpx_file gpx elevations Hparse Hpost Hroute
                Hlen) as Hrows.
  destruct (named_points_split GridRef latlong2grid gpx Hroute)
    as (start & pts & _ & Enp).
  assert (Hn : (0 < List.length (collect_named_points latlong2grid gpx))%nat)
    by (rewrite Enp, length_rename_last; simpl; lia).
  destruct (map _ (enumerate _)) as [|first rest] eqn:E.
  - apply (f_equal (@List.length Row)) in E.
    rewrite length_map, length_enumerate in E. simpl in E. lia.
  - exists first, rest. split; [exact Hrows|]. rewrite <- E.
    split; [rewrite length_map; apply length_enumerate|].
    apply deltas_of_rows.
Qed.

(** C6, as stated, fails: with elevations 0, 0.6 and 1.2 for the three
    named points the emitted deltas are blank, 1 and 1, whose sum 2 is not
    the total change 1.2. *)
Lemma fractional_elevation_deltas_miss_total_change :
  exists rows,
    snd (extract_named_waypoints Example.latlong2grid Example.str_grid
           Example.parse (Example.post Example.fractional_elevations)
           "route.gpx") = Ok rows /\
    List.length rows = 3%nat /\
    sum_of_deltas rows = 2%Z /\
    elevation Example.fractional_elevations 2
    - elevation Example.fractional_elevations 0 = 6 / 5 /\
    IZR (sum_of_deltas rows)
    <> elevation Example.fractional_elevations 2
       - elevation Example.fractional_elevations 0.
Proof.
  destruct (extract_first_row string Example.latlong2grid Example.str_grid
              Example.parse (Example.post Example.fractional_elevations)
              "route.gpx" Example.gpx Example.fractional_elevations)
    as (first & rest & Hrows & Hlen & Hdeltas);
    [reflexivity|reflexivity|discriminate|right; simpl; lia|].
  exists (first :: rest). split; [exact Hrows|].
  split; [exact Hlen|].
  assert (Hsum : sum_of_deltas (first :: rest) = 2%Z).
  { unfold sum_of_deltas. rewrite Hdeltas.
    cbn [collect_named_points List.length seq map fold_right].
    change (List.length (collect_named_points Example.latlong2grid Example.gpx))
      with 3%nat.
    cbn [seq map fold_right]. unfold delta_at, elevation. cbn.
    rewrite (round_upper_half (3 / 5 - 0) 0) by (simpl; lra).
    rewrite (round_upper_half (6 / 5 - 3 / 5) 0) by (simpl; lra).
    reflexivity. }
  assert (Hdiff : elevation Example.fractional_elevations 2
                  - elevation Example.fractional_elevations 0 = 6 / 5).
  { unfold elevation. cbn. lra. }
  split; [exact Hsum|]. split; [exact Hdiff|].
  rewrite Hsum, Hdiff. lra.
Qed.

(** C9, as stated, fails: four elevations for three named points is a
    count mismatch, yet the rows are emitted and the file is written. *)
Lemma surplus_elevations_still_convert :
  List.length Example.surplus_elevations
  <> List.length (collect_named_points Example.latlong2grid Example.gpx) /\
  (exists rows,
     snd (extract_named_waypoints Example.latlong2grid Example.str_grid
            Example.parse (Example.post Example.surplus_elevations)
            "route.gpx") = Ok rows /\
     List.length rows = 3%nat) /\
  exit_code (main Example.latlong2grid Example.str_grid Example.parse
               (Example.post Example.surplus_elevations) Example.save
               ["gpx2routecard"%string; "route.gpx"%string]) = 0%Z /\
  writes_file (main Example.latlong2grid Example.str_grid Example.parse
                 (Example.post Example.surplus_elevations) Example.save
                 ["gpx2routecard"%string; "route.gpx"%string]).
Proof.
  destruct (extract_first_row string Example.latlong2grid Example.str_grid
              Example.parse (Example.post Example.surplus_elevations)
              "route.gpx" Example.gpx Example.surplus_elevations)
    as (first & rest & Hrows & Hlen & _);
    [reflexivity|reflexivity|discriminate|right; simpl; lia|].
  split; [simpl; lia|].
  split; [exists (first :: rest); split; [exact Hrows|exact Hlen]|].
  apply (main_converted string Example.latlong2grid Example.str_grid
           Example.parse (Example.post Example.surplus_elevations)
           Example.save "gpx2routecard" "route.gpx" first rest);
    [reflexivity|exact Hrows|reflexivity].
Qed.

(** C5, as stated, fails: the Rest formula of the first data row evaluates
    to the empty text, not to the number 0. *)
Lemma rest_formula_of_first_row_is_not_0 :
  exists f,
    build_worksheet [Example.end_row] 2%nat 7%nat = Some (VStr f) /\
    eval_literal_formula f = Some (VStr EmptyString) /\
    eval_literal_formula f <> Some (VInt 0) /\
    eval_literal_formula f <> Some (VFloat 0).
Proof.
  exists (rest_formula 2). split; [reflexivity|].
  split; [reflexivity|]. split; discriminate.
Qed.

(** ** The theorems at the example route *)

(** C1 at the example route with whole-number elevations. *)
Lemma leg_distance_is_rounded_polyline_sum_witness :
  Example.parse "route.gpx" = Ok Example.gpx /\
  select_route_points Example.gpx <> [] /\
  exists rows,
    snd (extract_named_waypoints Example.latlong2grid Example.str_grid
           Example.parse (Example.post Example.integer_elevations)
           "route.gpx") = Ok rows /\
    forall (i : nat) (a b : named_point string) (p q : nat),
      nth_error (collect_named_points Example.latlong2grid Example.gpx) i
      = Some a ->
      nth_error (collect_named_points Example.latlong2grid Example.gpx) (i + 1)
      = Some b ->
      nearest_idx (select_route_points Example.gpx) (np_lat a) (np_lon a)
      = Ok p ->
      nearest_idx (select_route_points Example.gpx) (np_lat b) (np_lon b)
      = Ok q ->
      exists r,
        nth_error rows (i + 1) = Some r /\
        distance_from_last_km r
        = VFloat (Py.round_ndigits
                    (polyline_distance (select_route_points Example.gpx) p q)
                    2) /\
        ((q < p)%nat -> distance_from_last_km r = VFloat 0).
Proof.
  split; [reflexivity|]. split; [discriminate|].
  apply (leg_distance_is_rounded_polyline_sum string Example.latlong2grid
           Example.str_grid Example.parse
           (Example.post Example.integer_elevations) "route.gpx" Example.gpx
           Example.integer_elevations);
    [reflexivity|discriminate|reflexivity|right; simpl; lia].
Defined.

(** C2 at the example route, for a waypoint at latitude 0, longitude 1. *)
Lemma nearest_idx_is_first_minimum_witness :
  Example.route <> [] /\
  exists i,
    nearest_idx Example.route 0 1 = Ok i /\
    (i < List.length Example.route)%nat /\
    (forall j, (j < List.length Example.route)%nat ->
       distance_to Example.route 0 1 i <= distance_to Example.route 0 1 j) /\
    (forall j, (j < List.length Example.route)%nat ->
       distance_to Example.route 0 1 j = distance_to Example.route 0 1 i ->
       (i <= j)%nat).
Proof.
  split; [discriminate|].
  apply (nearest_idx_is_first_minimum Example.route 0 1). discriminate.
Defined.


(** C6 at the example route with whole-number elevations 100, 250, 180. *)
Lemma integer_elevation_deltas_sum_to_total_change_witness :
  (forall i,
     (i < List.length (collect_named_points Example.latlong2grid Example.gpx))%nat ->
     exists z, elevation Example.integer_elevations i = IZR z) /\
  exists (first : Row) (rest : list Row),
    snd (extract_named_waypoints Example.latlong2grid Example.str_grid
           Example.parse (Example.post Example.integer_elevations)
           "route.gpx") = Ok (first :: rest) /\
    List.length (map ascent (first :: rest)) = 3%nat /\
    ascent first = VStr EmptyString /\
    IZR (sum_of_deltas (first :: rest))
    = elevation Example.integer_elevations 2
      - elevation Example.integer_elevations 0.
Proof.
  assert (Hint : forall i,
             (i < List.length
                    (collect_named_points Example.latlong2grid Example.gpx))%nat ->
             exists z, elevation Example.integer_elevations i = IZR z).
  { intros i Hi. simpl in Hi.
    destruct i as [|[|[|i]]]; [exists 100%Z|exists 250%Z|exists 180%Z|lia];
      reflexivity. }
  split; [exact Hint|].
  destruct (integer_elevation_deltas_sum_to_total_change string
              Example.latlong2grid Example.str_grid Example.parse
              (Example.post Example.integer_elevations) "route.gpx"
              Example.gpx Example.integer_elevations)
    as (first & rest & Hrows & Hlen & Hblank & Hsum);
    [reflexivity|discriminate|reflexivity|right; simpl; lia|].
  exists first, rest. split; [exact Hrows|]. split; [exact Hlen|].
  split; [exact Hblank|]. exact (Hsum Hint).
Defined.

(** C10 at a track with one waypoint that has no name. *)
Lemma route_without_named_waypoints_yields_one_end_row_witness :
  select_route_points Example.gpx_start_only <> [] /\
  (forall w, In w (gpx_waypoints Example.gpx_start_only) ->
     truthy (wpt_name w) = false) /\
  exists row,
    snd (extract_named_waypoints Example.latlong2grid Example.str_grid
           Example.parse_start_only (Example.post Example.short_elevations)
           "track.gpx") = Ok [row] /\
    name row = "END"%string /\
    (forall r, In r [row] -> name r <> "START"%string).
Proof.
  assert (Hnone : forall w, In w (gpx_waypoints Example.gpx_start_only) ->
                    truthy (wpt_name w) = false).
  { intros w [<-|[]]. reflexivity. }
  split; [discriminate|]. split; [exact Hnone|].
  apply (route_without_named_waypoints_yields_one_end_row string
           Example.latlong2grid Example.str_grid Example.parse_start_only
           (Example.post Example.short_elevations) "track.gpx"
           Example.gpx_start_only Example.short_elevations);
    [reflexivity|discriminate|exact Hnone|reflexivity].
Defined.

(** C5 at the second of two data rows. *)
Lemma rest_formula_is_empty_text_then_10_witness :
  (2 <= 3 < List.length [Example.end_row; Example.end_row] + 2)%nat /\
  exists f,
    build_worksheet [Example.end_row; Example.end_row] 3%nat 7%nat
    = Some (VStr f) /\
    eval_literal_formula f = Some (VInt 10).
Proof.
  split; [simpl; lia|].
  apply (rest_formula_is_empty_text_then_10
           [Example.end_row; Example.end_row] 3).
  simpl; lia.
Defined.

(** C8 at the argument [route.kml]. *)
Lemma wrong_extension_exits_before_conversion_witness :
  lower (snd (splitext "route.kml")) <> ".gpx"%string /\
  main Example.latlong2grid Example.str_grid Example.parse
    (Example.post Example.integer_elevations) Example.save
    ["gpx2routecard"%string; "route.kml"%string]
  = {| exit_code := 1; events := [PrintOut (ExpectedGpx ".kml")] |} /\
  ~ writes_file
      (main Example.latlong2grid Example.str_grid Example.parse
         (Example.post Example.integer_elevations) Example.save
         ["gpx2routecard"%string; "route.kml"%string]).
Proof.
  assert (Hext : lower (snd (splitext "route.kml")) <> ".gpx"%string)
    by (vm_compute; discriminate).
  split; [exact Hext|].
  apply (wrong_extension_exits_before_conversion string Example.latlong2grid
           Example.str_grid Example.parse
           (Example.post Example.integer_elevations) Example.save
           "gpx2routecard" "route.kml" Hext).
Defined.

(** C9 at the example route: with one elevation for three named points the
    run fails, and with four the rows are those of the first three. *)
Lemma short_lookup_aborts_and_surplus_is_ignored_witness :
  ((List.length Example.short_elevations
    < List.length (collect_named_points Example.latlong2grid Example.gpx))%nat /\
   (exists e,
      snd (extract_named_waypoints Example.latlong2grid Example.str_grid
             Example.parse (Example.post Example.short_elevations) "route.gpx")
      = Raise e) /\
   exit_code
     (main Example.latlong2grid Example.str_grid Example.parse
        (Example.post Example.short_elevations) Example.save
        ["gpx2routecard"%string; "route.gpx"%string]) = 1%Z /\
   ~ writes_file
       (main Example.latlong2grid Example.str_grid Example.parse
          (Example.post Example.short_elevations) Example.save
          ["gpx2routecard"%string; "route.gpx"%string])) /\
  (Example.surplus_elevations = Example.integer_elevations ++ [(0, 3, 90)] /\
   exists rows,
     snd (extract_named_waypoints Example.latlong2grid Example.str_grid
            Example.parse (Example.post Example.surplus_elevations)
            "route.gpx") = Ok rows /\
     build_rows Example.str_grid (select_route_points Example.gpx)
       (collect_named_points Example.latlong2grid Example.gpx)
       Example.integer_elevations = Ok rows /\
     List.length rows = 3%nat).
Proof.
  split.
  - split; [simpl; lia|].
    destruct (short_lookup_aborts_and_surplus_is_ignored string
                Example.latlong2grid Example.str_grid Example.parse
                (Example.post Example.short_elevations) Example.save
                "gpx2routecard" "route.gpx" Example.gpx)
      as (Hfail & _ & _); [reflexivity|].
    apply Hfail. right. exists Example.short_elevations.
    split; [reflexivity|]. split; simpl; lia.
  - split; [reflexivity|].
    destruct (short_lookup_aborts_and_surplus_is_ignored string
                Example.latlong2grid Example.str_grid Example.parse
                (Example.post Example.surplus_elevations) Example.save
                "gpx2routecard" "route.gpx" Example.gpx)
      as (_ & Hsurplus & _); [reflexivity|].
    apply (Hsurplus Example.integer_elevations [(0, 3, 90)]);
      [reflexivity|discriminate|reflexivity].
Defined.

(** ** Further properties of the geodesy functions *)

Lemma atan2_first_quadrant (y x : R) :
  0 <= y -> 0 <= x -> 0 <= Py.atan2 y x <= PI / 2.
Proof.
  intros Hy Hx. pose proof PI_RGT_0 as Hpi. unfold Py.atan2.
  destruct (Rlt_dec 0 x) as [Hx0|Hx0].
  - pose proof (atan_bound (y / x)) as [_ Hhi].
    split; [|lra].
    destruct Hy as [Hy|Hy].
    + left. rewrite <- atan_0. apply atan_increasing.
      apply Rdiv_lt_0_compat; assumption.
    + subst y. unfold Rdiv. rewrite Rmult_0_l, atan_0. lra.
  - destruct (Rlt_dec x 0) as [Hx1|Hx1]; [lra|].
    destruct (Rlt_dec 0 y) as [Hy0|Hy0]; [lra|].
    destruct (Rlt_dec y 0) as [Hy1|Hy1]; lra.
Qed.

Lemma haversine_bounds (lat1 lon1 lat2 lon2 : R) :
  0 <= haversine lat1 lon1 lat2 lon2 <= 6371 * PI.
Proof.
  unfold haversine.
  match goal with
  | |- context [Py.atan2 ?y ?x] =>
      pose proof (atan2_first_quadrant y x (sqrt_pos _) (sqrt_pos _)) as [Hlo Hhi]
  end.
  split; nra.
Qed.

(** X1: the great-circle distance is never negative and never more than
    half the circumference of the sphere, 6371 * pi km. *)
Theorem haversine_between_0_and_half_circumference
    (lat1 lon1 lat2 lon2 : R) :
  0 <= haversine lat1 lon1 lat2 lon2 <= 6371 * PI.
Proof.
  unfold haversine.
  set (a := sin (Py.radians (lat2 - lat1) / 2) ^ 2
            + cos (Py.radians lat1) * cos (Py.radians lat2)
              * sin (Py.radians (lon2 - lon1) / 2) ^ 2).
  destruct (atan2_first_quadrant (sqrt a) (sqrt (1 - a)))
    as [Hlo Hhi]; [apply sqrt_pos|apply sqrt_pos|].
  split; nra.
Qed.

(** X3: for all coordinates the bearing is an integer from 0 to 360, both
    included. *)
Theorem calculate_bearing_between_0_and_360 (lat1 lon1 lat2 lon2 : R) :
  (0 <= calculate_bearing lat1 lon1 lat2 lon2 <= 360)%Z.
Proof.
  unfold calculate_bearing.
  destruct (fmod_360_range (raw_bearing lat1 lon1 lat2 lon2 + 360))
    as [Hlo Hhi].
  pose proof (round_mono _ _ Hlo) as Hlow.
  pose proof (round_mono _ 360 (Rlt_le _ _ Hhi)) as Hhigh.
  rewrite (round_IZR 0) in Hlow. rewrite (round_IZR 360) in Hhigh.
  split; assumption.
Qed.

Lemma fmod_360_once (x : R) : 360 <= x < 720 -> Py.fmod x 360 = x - 360.
Proof.
  intros [Hlo Hhi]. unfold Py.fmod.
  rewrite (Zfloor_eq 1 (x / 360)).
  - simpl. ring.
  - simpl. split.
    + apply (Rmult_le_reg_r 360); [lra|].
      replace (x / 360 * 360) with x by field. lra.
    + apply (Rmult_lt_reg_r 360); [lra|].
      replace (x / 360 * 360) with x by field. lra.
Qed.


Lemma degrees_0 : Py.degrees 0 = 0.
Proof. unfold Py.degrees. ring. Qed.

Lemma raw_bearing_same_longitude (lat1 lat2 lon : R) :
  raw_bearing lat1 lon lat2 lon
  = Py.degrees (Py.atan2 0 (sin (Py.radians (lat2 - lat1)))).
Proof.
  unfold raw_bearing.
  replace (Py.radians lon - Py.radians lon) with 0 by ring.
  rewrite sin_0, cos_0, Rmult_0_l.
  replace (Py.radians (lat2 - lat1)) with (Py.radians lat2 - Py.radians lat1)
    by (unfold Py.radians; ring).
  rewrite sin_minus. f_equal. f_equal. ring.
Qed.

(** X4: towards a point of the same longitude and a latitude larger by
    less than 180 degrees the bearing is 0. *)
Theorem bearing_due_north_is_0 (lat1 lat2 lon : R) :
  0 < lat2 - lat1 < 180 -> calculate_bearing lat1 lon lat2 lon = 0%Z.
Proof.
  pose proof PI_RGT_0 as Hpi.
  assert (Hrad : Py.radians (lat2 - lat1) = (lat2 - lat1) * (PI / 180))
    by reflexivity.
  intros [Hlo Hhi]. unfold calculate_bearing.
  rewrite raw_bearing_same_longitude.
  assert (Hs : 0 < sin (Py.radians (lat2 - lat1))).
  { apply sin_gt_0; rewrite Hrad; nra. }
  unfold Py.atan2. destruct (Rlt_dec 0 _) as [_|H]; [|contradiction].
  unfold Rdiv at 1. rewrite Rmult_0_l, atan_0, degrees_0.
  rewrite fmod_360_once by lra.
  replace (0 + 360 - 360) with 0 by ring. apply (round_IZR 0).
Qed.


(** X6: the bearing from a point to itself is 0. *)
Theorem bearing_between_coincident_points_is_0 (lat lon : R) :
  calculate_bearing lat lon lat lon = 0%Z.
Proof.
  unfold calculate_bearing. rewrite raw_bearing_same_longitude.
  replace (lat - lat) with 0 by ring.
  replace (Py.radians 0) with 0 by (unfold Py.radians; ring).
  rewrite sin_0. unfold Py.atan2.
  destruct (Rlt_dec 0 0) as [H|_]; [lra|].
  destruct (Rlt_dec 0 0) as [H|_]; [lra|].
  rewrite degrees_0, fmod_360_once by lra.
  replace (0 + 360 - 360) with 0 by ring. apply (round_IZR 0).
Qed.

Lemma format_03d_up_to_999 :
  forallb (fun n => (String.length (format_03d (Z.of_nat n)) =? 3)%nat)
          (seq 0 1000) = true.
Proof. vm_compute. reflexivity. Qed.

Lemma format_03d_three_characters (z : Z) :
  (0 <= z <= 999)%Z -> String.length (format_03d z) = 3%nat.
Proof.
  intros Hz. pose proof format_03d_up_to_999 as H.
  rewrite forallb_forall in H.
  specialize (H (Z.to_nat z)). rewrite Z2Nat.id in H by lia.
  apply Nat.eqb_eq, H, in_seq. lia.
Qed.

Lemma bearing_text_length (lat1 lon1 lat2 lon2 : R) :
  String.length (format_03d (calculate_bearing lat1 lon1 lat2 lon2)) = 3%nat.
Proof.
  apply format_03d_three_characters.
  pose proof (calculate_bearing_range lat1 lon1 lat2 lon2). lia.
Qed.

(** X7: the bearing is always formatted as exactly three characters (line
    92), whatever the coordinates. *)
Theorem bearing_text_has_three_digits (lat1 lon1 lat2 lon2 : R) :
  String.length (format_03d (calculate_bearing lat1 lon1 lat2 lon2)) = 3%nat.
Proof.
  pose proof (calculate_bearing_range lat1 lon1 lat2 lon2) as [Hlo Hhi].
  apply format_03d_three_characters.
  split; [exact Hlo|]. apply Z.le_trans with 360%Z; [exact Hhi|lia].
Qed.

(** ** Matching a waypoint that lies on the polyline *)

(** X8: a waypoint whose coordinates are those of polyline point [k] is
    matched, at distance 0, to an index that is at most [k]. *)
Theorem waypoint_on_polyline_point_matches_at_distance_0
    (route_points : list point) (k : nat) :
  (k < List.length route_points)%nat ->
  exists i,
    nearest_idx route_points (fst (nth k route_points (0, 0)))
                             (snd (nth k route_points (0, 0))) = Ok i /\
    (i <= k)%nat /\
    distance_to route_points (fst (nth k route_points (0, 0)))
                             (snd (nth k route_points (0, 0))) i = 0.
Proof.
  intros Hk.
  assert (Hne : route_points <> []) by (destruct route_points; simpl in Hk; [lia|discriminate]).
  set (pt := nth k route_points (0, 0)).
  destruct (nearest_idx_spec route_points (fst pt) (snd pt) Hne)
    as (i & E & Hi & Hmin & Hfirst).
  assert (Hk0 : distance_to route_points (fst pt) (snd pt) k = 0).
  { unfold distance_to. fold pt. apply haversine_same. }
  assert (Hi0 : 0 <= distance_to route_points (fst pt) (snd pt) i).
  { unfold distance_to. apply haversine_bounds. }
  exists i. split; [exact E|]. split.
  - destruct (Nat.le_gt_cases i k) as [H|H]; [exact H|].
    specialize (Hfirst k H). lra.
  - specialize (Hmin k Hk). lra.
Qed.

Lemma waypoint_on_polyline_start (start : point) (pts : list point) :
  exists i, nearest_idx (start :: pts) (fst start) (snd start) = Ok i /\
            (i <= 0)%nat.
Proof.
  assert (Hne : start :: pts <> []) by discriminate.
  destruct (nearest_idx_spec (start :: pts) (fst start) (snd start) Hne)
    as (i & E & Hi & Hmin & Hfirst).
  exists i. split; [exact E|].
  destruct (Nat.le_gt_cases i 0) as [H|H]; [exact H|].
  specialize (Hfirst 0%nat H).
  assert (H0 : distance_to (start :: pts) (fst start) (snd start) 0 = 0)
    by (unfold distance_to; simpl; apply haversine_same).
  pose proof (haversine_bounds (fst start) (snd start)
                (fst (nth i (start :: pts) (0, 0)))
                (snd (nth i (start :: pts) (0, 0)))) as [Hlo _].
  unfold distance_to in *. lra.
Qed.

(** X9: the START entry, which has the coordinates of the first polyline
    point, is matched to polyline index 0. *)
Theorem start_matches_polyline_index_0 (start : point) (pts : list point) :
  nearest_idx (start :: pts) (fst start) (snd start) = Ok 0%nat.
Proof.
  destruct (waypoint_on_polyline_start start pts) as (i & E & Hi).
  rewrite E. f_equal. lia.
Qed.

(** ** Further properties of the rows *)

Lemma length_spaces (n : nat) : String.length (spaces n) = n.
Proof. induction n as [|n IH]; simpl; [reflexivity|]. rewrite IH. reflexivity. Qed.

Lemma length_string_app (s t : string) :
  String.length (s ++ t) = (String.length s + String.length t)%nat.
Proof. induction s as [|c s IH]; simpl; [reflexivity|]. rewrite IH. reflexivity. Qed.

Lemma length_rjust (s : string) (width : nat) :
  String.length (rjust s width) = Nat.max (String.length s) width.
Proof. unfold rjust. rewrite length_string_app, length_spaces. lia. Qed.

Lemma map_snd_combine_seq {A : Type} (l : list A) (a : nat) :
  map snd (combine (seq a (List.length l)) l) = l.
Proof.
  revert a. induction l as [|y l IH]; intros a; simpl; [reflexivity|].
  rewrite IH. reflexivity.
Qed.

Lemma map_rows_by_point (GridRef : Type) (A : Type) (mk : nat * named_point GridRef -> Row)
    (field : Row -> A) (g : named_point GridRef -> A)
    (named_points : list (named_point GridRef)) :
  (forall i p, field (mk (i, p)) = g p) ->
  map field (map mk (enumerate named_points)) = map g named_points.
Proof.
  intros H. rewrite map_map.
  rewrite <- (map_snd_combine_seq named_points 0) at 2. rewrite map_map.
  apply map_ext. intros [i p]. apply H.
Qed.

Section NamedPointFacts.

Variable GridRef : Type.
Variable latlong2grid : R -> R -> GridRef.

Lemma waypoint_entries_names (wpts : list GPXWaypoint) :
  map np_name (waypoint_entries latlong2grid wpts)
  = map (fun w => or_empty (wpt_name w))
        (filter (fun w => truthy (wpt_name w)) wpts).
Proof.
  induction wpts as [|w wpts IH]; simpl; [reflexivity|].
  destruct (truthy (wpt_name w)); simpl; rewrite IH; reflexivity.
Qed.

Lemma waypoint_entries_descriptions (wpts : list GPXWaypoint) :
  map np_desc (waypoint_entries latlong2grid wpts)
  = map (fun w => or_empty (wpt_description w))
        (filter (fun w => truthy (wpt_name w)) wpts).
Proof.
  induction wpts as [|w wpts IH]; simpl; [reflexivity|].
  destruct (truthy (wpt_name w)); simpl; rewrite IH; reflexivity.
Qed.

Lemma waypoint_entries_locations (wpts : list GPXWaypoint) :
  locations_of (waypoint_entries latlong2grid wpts)
  = map (fun w => (wpt_latitude w, wpt_longitude w))
        (filter (fun w => truthy (wpt_name w)) wpts).
Proof.
  unfold locations_of.
  induction wpts as [|w wpts IH]; simpl; [reflexivity|].
  destruct (truthy (wpt_name w)); simpl; rewrite IH; reflexivity.
Qed.

Lemma rename_last_keeps (A : Type) (f : named_point GridRef -> A)
    (l : list (named_point GridRef)) :
  (forall p, f (renamed GridRef p) = f p) ->
  map f (rename_last l) = map f l.
Proof.
  intros Hf. destruct l as [|x l]; [reflexivity|].
  destruct (exists_last (l := x :: l)) as (front & p & E); [discriminate|].
  rewrite E, rename_last_app, !map_app. simpl. rewrite Hf. reflexivity.
Qed.

Lemma rename_last_names (l : list (named_point GridRef)) :
  l <> [] ->
  map np_name (rename_last l) = removelast (map np_name l) ++ ["END"%string].
Proof.
  intros Hne.
  destruct (exists_last Hne) as (front & p & E).
  rewrite E, rename_last_app, !map_app. simpl map.
  rewrite removelast_last. reflexivity.
Qed.

Lemma collected_grid_of_own_position (gpx : GPX) (p : named_point GridRef) :
  In p (collect_named_points latlong2grid gpx) ->
  np_grid p = latlong2grid (np_lat p) (np_lon p).
Proof.
  unfold collect_named_points.
  set (l := start_entry latlong2grid (select_route_points gpx)
            ++ waypoint_entries latlong2grid (gpx_waypoints gpx)).
  assert (Hl : forall q, In q l -> np_grid q = latlong2grid (np_lat q) (np_lon q)).
  { intros q Hq. unfold l in Hq. apply in_app_or in Hq.
    destruct Hq as [Hq|Hq].
    - unfold start_entry in Hq.
      destruct (select_route_points gpx) as [|s pts]; [contradiction|].
      destruct Hq as [<-|[]]. reflexivity.
    - clear l. induction (gpx_waypoints gpx) as [|w wpts IH]; [contradiction|].
      simpl in Hq. destruct (truthy (wpt_name w)); [|apply IH; exact Hq].
      destruct Hq as [<-|Hq]; [reflexivity|apply IH; exact Hq]. }
  intros Hp. destruct l as [|x l'] eqn:El; [contradiction|].
  destruct (exists_last (l := x :: l')) as (front & q & E); [discriminate|].
  rewrite E in Hp, Hl. rewrite rename_last_app in Hp.
  apply in_app_or in Hp. destruct Hp as [Hp|[<-|[]]].
  - apply Hl, in_or_app. left. exact Hp.
  - unfold renamed. simpl. apply (Hl q), in_or_app. right. left. reflexivity.
Qed.

End NamedPointFacts.

Lemma Rsum_nonneg (l : list R) : (forall x, In x l -> 0 <= x) -> 0 <= Rsum l.
Proof.
  induction l as [|x l IH]; intros H; simpl; [lra|].
  assert (0 <= x) by (apply H; left; reflexivity).
  assert (0 <= Rsum l) by (apply IH; intros y Hy; apply H; right; exact Hy).
  unfold Rsum in *. lra.
Qed.

Lemma polyline_distance_nonneg (route_points : list point) (p q : nat) :
  0 <= polyline_distance route_points p q.
Proof.
  unfold polyline_distance. apply Rsum_nonneg.
  intros x Hx. apply in_map_iff in Hx. destruct Hx as (j & <- & _).
  unfold segment. apply haversine_bounds.
Qed.

Lemma round_ndigits_nonneg (x : R) (n : nat) :
  0 <= x -> 0 <= Py.round_ndigits x n.
Proof.
  intros Hx. unfold Py.round_ndigits.
  assert (Hp : 0 < 10 ^ n) by (apply pow_lt; lra).
  assert (Hr : (0 <= Py.round (x * 10 ^ n))%Z).
  { rewrite <- (round_IZR 0). apply round_mono. simpl. nra. }
  apply IZR_le in Hr. apply Rmult_le_pos; [exact Hr|].
  left. apply Rinv_0_lt_compat. exact Hp.
Qed.

Section RowProperties.

Variable GridRef : Type.
Variable latlong2grid : R -> R -> GridRef.
Variable str_grid : GridRef -> string.
Variable gpxpy_parse : string -> result GPX.
Variable requests_post : list point -> result (list (R * R * R)).

(** X10: a successful extraction emits one row for START and one for each
    GPX waypoint with a non-empty name, in file order; the names are START,
    then the waypoint names, with the last one replaced by END, and the
    descriptions are the empty text for START and each waypoint's own
    description (empty when it has none). *)
Theorem rows_keep_names_and_descriptions_in_file_order
    (gpx_file : string) (gpx : GPX) (elevations : list (R * R * R)) :
  gpxpy_parse gpx_file = Ok gpx ->
  select_route_points gpx <> [] ->
  requests_post (locations_of (collect_named_points latlong2grid gpx))
  = Ok elevations ->
  (List.length (collect_named_points latlong2grid gpx) <= 1 \/
   List.length (collect_named_points latlong2grid gpx)
   <= List.length elevations)%nat ->
  exists rows,
    snd (extract_named_waypoints latlong2grid str_grid gpxpy_parse
           requests_post gpx_file) = Ok rows /\
    List.length rows = S (List.length (named_waypoints gpx)) /\
    map name rows
    = removelast
        ("START"%string
         :: map (fun w => or_empty (wpt_name w)) (named_waypoints gpx))
      ++ ["END"%string] /\
    map description rows
    = EmptyString
      :: map (fun w => or_empty (wpt_description w)) (named_waypoints gpx).
Proof.
  intros Hparse Hroute Hpost Hlen.
  pose proof (extract_rows GridRef latlong2grid str_grid gpxpy_parse
                requests_post gpx_file gpx elevations Hparse Hpost Hroute
                Hlen) as Hrows.
  destruct (named_points_split GridRef latlong2grid gpx Hroute)
    as (start & pts & _ & Enp).
  eexists. split; [exact Hrows|].
  assert (Hnames : map name
                     (map (row_of GridRef str_grid (select_route_points gpx)
                             (collect_named_points latlong2grid gpx) elevations)
                          (enumerate (collect_named_points latlong2grid gpx)))
                   = map np_name (collect_named_points latlong2grid gpx)).
  { apply map_rows_by_point. intros i p. reflexivity. }
  assert (Hdescs : map description
                     (map (row_of GridRef str_grid (select_route_points gpx)
                             (collect_named_points latlong2grid gpx) elevations)
                          (enumerate (collect_named_points latlong2grid gpx)))
                   = map np_desc (collect_named_points latlong2grid gpx)).
  { apply map_rows_by_point. intros i p. reflexivity. }
  split; [|split].
  - rewrite length_map, length_enumerate, Enp, length_rename_last.
    simpl. f_equal.
    rewrite <- (length_map np_name), waypoint_entries_names, length_map.
    reflexivity.
  - rewrite Hnames, Enp, rename_last_names by discriminate.
    simpl map. rewrite waypoint_entries_names. reflexivity.
  - rewrite Hdescs, Enp.
    rewrite (rename_last_keeps GridRef _ np_desc) by (intros p; reflexivity).
    simpl map. rewrite waypoint_entries_descriptions. reflexivity.
Qed.

(** X11: the grid reference of every row is the conversion of the
    coordinates sent to the elevation lookup for that row, right-justified
    to 8 characters; it is never shorter than 8 characters. *)
Theorem grid_references_are_right_justified_conversions
    (gpx_file : string) (gpx : GPX) (elevations : list (R * R * R)) :
  gpxpy_parse gpx_file = Ok gpx ->
  select_route_points gpx <> [] ->
  requests_post (locations_of (collect_named_points latlong2grid gpx))
  = Ok elevations ->
  (List.length (collect_named_points latlong2grid gpx) <= 1 \/
   List.length (collect_named_points latlong2grid gpx)
   <= List.length elevations)%nat ->
  exists rows,
    snd (extract_named_waypoints latlong2grid str_grid gpxpy_parse
           requests_post gpx_file) = Ok rows /\
    map grid_reference rows
    = map (fun loc => rjust (str_grid (latlong2grid (fst loc) (snd loc))) 8)
          (locations_of (collect_named_points latlong2grid gpx)) /\
    (forall r, In r rows -> (8 <= String.length (grid_reference r))%nat).
Proof.
  intros Hparse Hroute Hpost Hlen.
  pose proof (extract_rows GridRef latlong2grid str_grid gpxpy_parse
                requests_post gpx_file gpx elevations Hparse Hpost Hroute
                Hlen) as Hrows.
  eexists. split; [exact Hrows|]. split.
  - rewrite (map_rows_by_point GridRef string _ grid_reference
               (fun p => rjust (str_grid (np_grid p)) 8))
      by (intros i p; reflexivity).
    unfold locations_of. rewrite map_map. apply map_ext_in.
    intros p Hp. simpl.
    rewrite (collected_grid_of_own_position GridRef latlong2grid gpx p Hp).
    reflexivity.
  - intros r Hr. apply in_map_iff in Hr. destruct Hr as ([i p] & <- & _).
    unfold row_of. cbn [grid_reference]. rewrite length_rjust. lia.
Qed.

(** X12: every row after the first has a distance that is a number and
    not negative, a bearing of three characters followed by the degree sign,
    and an integer ascent; the blanks appended after the loop (lines 99-100)
    are never emitted. *)
Theorem rows_after_the_first_are_fully_filled
    (gpx_file : string) (gpx : GPX) (elevations : list (R * R * R)) :
  gpxpy_parse gpx_file = Ok gpx ->
  select_route_points gpx <> [] ->
  requests_post (locations_of (collect_named_points latlong2grid gpx))
  = Ok elevations ->
  (List.length (collect_named_points latlong2grid gpx) <= 1 \/
   List.length (collect_named_points latlong2grid gpx)
   <= List.length elevations)%nat ->
  exists rows,
    snd (extract_named_waypoints latlong2grid str_grid gpxpy_parse
           requests_post gpx_file) = Ok rows /\
    forall (i : nat) (r : Row),
      (1 <= i)%nat -> nth_error rows i = Some r ->
      exists (d : R) (digits : string) (z : Z),
        distance_from_last_km r = VFloat d /\ 0 <= d /\
        bearing r = VStr (digits ++ degree_sign) /\
        String.length digits = 3%nat /\
        ascent r = VInt z.
Proof.
  intros Hparse Hroute Hpost Hlen.
  pose proof (extract_rows GridRef latlong2grid str_grid gpxpy_parse
                requests_post gpx_file gpx elevations Hparse Hpost Hroute
                Hlen) as Hrows.
  eexists. split; [exact Hrows|].
  intros i r Hi Hr.
  rewrite nth_error_map in Hr.
  destruct (nth_error (enumerate _) i) as [[j p]|] eqn:E; [|discriminate].
  assert (Hj : j = i).
  { assert (Hlt : (i < List.length (collect_named_points latlong2grid gpx))%nat).
    { rewrite <- (length_enumerate (collect_named_points latlong2grid gpx)).
      apply nth_error_Some. rewrite E. discriminate. }
    destruct (nth_error (collect_named_points latlong2grid gpx) i) as [q|] eqn:Eq.
    - rewrite (nth_error_enumerate _ _ _ Eq) in E. injection E as <- _.
      reflexivity.
    - apply nth_error_None in Eq. lia. }
  subst j. simpl in Hr. injection Hr as <-.
  unfold row_of. cbn [distance_from_last_km bearing ascent].
  replace (0 <? i)%nat with true by (symmetry; apply Nat.ltb_lt; lia).
  unfold leg_distance, leg_bearing, leg_ascent.
  eexists _, _, _. split; [reflexivity|].
  split; [apply round_ndigits_nonneg, polyline_distance_nonneg|].
  split; [reflexivity|]. split; [apply bearing_text_length|reflexivity].
Qed.

End RowProperties.

(** ** [os.path.splitext] splits, it does not change the path *)

Lemma substring_all (s : string) : substring 0 (String.length s) s = s.
Proof. induction s as [|c s IH]; simpl; [reflexivity|]. rewrite IH. reflexivity. Qed.

Lemma substring_join (s : string) (n : nat) :
  (n <= String.length s)%nat ->
  (substring 0 n s ++ substring n (String.length s - n) s)%string = s.
Proof.
  revert n. induction s as [|c s IH]; intros n Hn.
  - simpl in Hn. replace n with 0%nat by lia. reflexivity.
  - destruct n as [|n].
    + simpl. rewrite substring_all. reflexivity.
    + simpl in Hn. simpl. rewrite IH by lia. reflexivity.
Qed.

Lemma rfind_from_bound (c : ascii) (s : string) (i found : Z) :
  (found < i)%Z ->
  (rfind_from c s i found < i + Z.of_nat (String.length s))%Z.
Proof.
  revert i found. induction s as [|x s IH]; intros i found H.
  - simpl. lia.
  - cbn [rfind_from String.length]. destruct (Ascii.eqb x c).
    + pose proof (IH (i + 1)%Z i ltac:(lia)). lia.
    + pose proof (IH (i + 1)%Z found ltac:(lia)). lia.
Qed.

Lemma splitext_join (p : string) :
  (fst (splitext p) ++ snd (splitext p))%string = p.
Proof.
  unfold splitext.
  destruct (rfind "/" p <? rfind "." p)%Z eqn:E.
  - destruct (has_non_dot _ _ _).
    + simpl. apply substring_join.
      pose proof (rfind_from_bound "." p 0 (-1) ltac:(lia)) as Hb.
      fold (rfind "." p) in Hb. lia.
    + simpl. clear. induction p as [|c p IH]; simpl; [reflexivity|].
      rewrite IH. reflexivity.
  - simpl. clear. induction p as [|c p IH]; simpl; [reflexivity|].
    rewrite IH. reflexivity.
Qed.

(** ** Further properties of [main] *)

Section MainProperties.

Variable GridRef : Type.
Variable latlong2grid : R -> R -> GridRef.
Variable str_grid : GridRef -> string.
Variable gpxpy_parse : string -> result GPX.
Variable requests_post : list point -> result (list (R * R * R)).

Lemma locations_of_collected (gpx : GPX) :
  locations_of (collect_named_points latlong2grid gpx)
  = firstn 1 (select_route_points gpx)
    ++ map (fun w => (wpt_latitude w, wpt_longitude w)) (named_waypoints gpx).
Proof.
  unfold collect_named_points, locations_of at 1.
  rewrite (rename_last_keeps GridRef _ (fun p => (np_lat p, np_lon p)))
    by (intros p; reflexivity).
  rewrite map_app.
  pose proof (waypoint_entries_locations GridRef latlong2grid
                (gpx_waypoints gpx)) as Hw.
  unfold locations_of in Hw. rewrite Hw. fold (named_waypoints gpx).
  unfold start_entry. destruct (select_route_points gpx) as [|[la lo] pts];
    reflexivity.
Qed.

(** X13: once the file is parsed, the extraction opens the file and posts
    one lookup, whatever happens next: for the first polyline point (if
    there is one) followed by the named waypoints in file order. *)
Theorem lookup_asks_for_start_then_named_waypoints
    (gpx_file : string) (gpx : GPX) :
  gpxpy_parse gpx_file = Ok gpx ->
  fst (extract_named_waypoints latlong2grid str_grid gpxpy_parse
         requests_post gpx_file)
  = [Open gpx_file;
     Post (firstn 1 (select_route_points gpx)
           ++ map (fun w => (wpt_latitude w, wpt_longitude w))
                  (named_waypoints gpx))].
Proof.
  intros Hparse. unfold extract_named_waypoints. rewrite Hparse.
  rewrite locations_of_collected.
  destruct (get_elevations_post _ _); reflexivity.
Qed.

Lemma length_collected (gpx : GPX) :
  List.length (collect_named_points latlong2grid gpx)
  = (List.length (firstn 1 (select_route_points gpx))
     + List.length (named_waypoints gpx))%nat.
Proof.
  rewrite <- (length_map (fun p => (np_lat p, np_lon p))).
  change (map (fun p => (np_lat p, np_lon p))
            (collect_named_points latlong2grid gpx))
    with (locations_of (collect_named_points latlong2grid gpx)).
  rewrite locations_of_collected, length_app, length_map. reflexivity.
Qed.

Lemma build_rows_nothing (elevations : list (R * R * R)) :
  build_rows str_grid [] (@nil (named_point GridRef)) elevations = Ok [].
Proof. reflexivity. Qed.

(** X14: the extraction returns rows only when the file parses, the lookup
    answers, and either there is neither a polyline nor a named waypoint,
    or there is a polyline and there are no named waypoints or at least as
    many elevations as named points. *)
Theorem extraction_returns_rows_only_when (gpx_file : string) :
  (exists rows,
     snd (extract_named_waypoints latlong2grid str_grid gpxpy_parse
            requests_post gpx_file) = Ok rows) ->
  exists gpx elevations,
    gpxpy_parse gpx_file = Ok gpx /\
    requests_post (locations_of (collect_named_points latlong2grid gpx))
    = Ok elevations /\
    ((select_route_points gpx = [] /\ named_waypoints gpx = []) \/
     (select_route_points gpx <> [] /\
      (named_waypoints gpx = [] \/
       S (List.length (named_waypoints gpx)) <= List.length elevations)%nat)).
Proof.
  intros (rows & Hrows).
  destruct (gpxpy_parse gpx_file) as [gpx|e] eqn:Hparse.
  2: { unfold extract_named_waypoints in Hrows. rewrite Hparse in Hrows.
       discriminate. }
  destruct (requests_post (locations_of (collect_named_points latlong2grid gpx)))
    as [elevations|e] eqn:Hpost.
  2: { unfold extract_named_waypoints, get_elevations_post in Hrows.
       rewrite Hparse, Hpost in Hrows. discriminate. }
  exists gpx, elevations. split; [reflexivity|]. split; [exact Hpost|].
  rewrite (extract_after_lookup GridRef latlong2grid str_grid
             gpxpy_parse requests_post gpx_file gpx elevations
             Hparse Hpost) in Hrows.
  simpl snd in Hrows.
  pose proof (length_collected gpx) as Hn.
  destruct (select_route_points gpx) as [|pt pts] eqn:Ert.
  - left. split; [reflexivity|].
    destruct (named_waypoints gpx) as [|w ws] eqn:Ew; [reflexivity|].
    rewrite build_rows_without_polyline in Hrows; [discriminate|].
    intros Hnil. rewrite Hnil in Hn. simpl in Hn. lia.
  - right. split; [discriminate|].
    destruct (named_waypoints gpx) as [|w ws] eqn:Ew; [left; reflexivity|].
    right. simpl List.length in *.
    destruct (Nat.le_gt_cases (S (S (List.length ws))) (List.length elevations))
      as [H|H]; [exact H|].
    rewrite build_rows_index_error in Hrows;
      [discriminate|discriminate|lia|lia].
Qed.

End MainProperties.

Section MainOutcomes.

Variable GridRef : Type.
Variable latlong2grid : R -> R -> GridRef.
Variable str_grid : GridRef -> string.
Variable gpxpy_parse : string -> result GPX.
Variable requests_post : list point -> result (list (R * R * R)).
Variable write_xlsx : string -> worksheet -> result unit.

Lemma main_with_gpx_extension (prog inp : string) :
  lower (snd (splitext inp)) = ".gpx"%string ->
  main latlong2grid str_grid gpxpy_parse requests_post write_xlsx [prog; inp]
  = match extract_named_waypoints latlong2grid str_grid gpxpy_parse
            requests_post inp with
    | (evs, Raise e) =>
        {| exit_code := 1; events := evs ++ [PrintErr (failure_message e)] |}
    | (evs, Ok []) =>
        {| exit_code := 1; events := evs ++ [PrintErr NoWaypointsFound] |}
    | (evs, Ok (row :: rows)) =>
        match write_xlsx (fst (splitext inp) ++ ".xlsx")%string
                (build_worksheet (row :: rows)) with
        | Ok _ =>
            {| exit_code := 0;
               events :=
                 evs ++ [WriteXlsx (fst (splitext inp) ++ ".xlsx")%string
                           (build_worksheet (row :: rows));
                         PrintOut (Converted inp
                                     (fst (splitext inp) ++ ".xlsx")%string);
                         PrintOut (Found (List.length (row :: rows)))] |}
        | Raise e =>
            {| exit_code := 1;
               events := evs ++ [PrintErr (failure_message e)] |}
        end
    end.
Proof.
  intros Hext. unfold main. cbn [List.length Nat.eqb negb nth].
  destruct (splitext inp) as [base ext]. simpl in Hext. rewrite Hext.
  cbn [String.eqb Ascii.eqb Bool.eqb negb fst].
  destruct (extract_named_waypoints _ _ _ _ inp) as [evs [[|row rows]|e]];
    try reflexivity.
  - destruct (write_xlsx _ _) as [u|e]; [reflexivity|].
    destruct e; reflexivity.
  - destruct e; reflexivity.
Qed.

Lemma wrong_argument_count_prints_usage_aux (argv : list string) :
  List.length argv <> 2%nat ->
  main latlong2grid str_grid gpxpy_parse requests_post write_xlsx argv
  = {| exit_code := 1;
       events := [PrintOut (Usage (basename (nth 0 argv EmptyString)))] |}.
Proof.
  intros Hlen. unfold main.
  apply Nat.eqb_neq in Hlen. rewrite Hlen. reflexivity.
Qed.

Lemma wrong_extension_aux (prog inp : string) :
  lower (snd (splitext inp)) <> ".gpx"%string ->
  main latlong2grid str_grid gpxpy_parse requests_post write_xlsx [prog; inp]
  = {| exit_code := 1;
       events := [PrintOut (ExpectedGpx (snd (splitext inp)))] |} /\ True.
Proof.
  intros Hext. split; [|exact I].
  unfold main. cbn [List.length Nat.eqb negb nth].
  destruct (splitext inp) as [base ext]. simpl in Hext |- *.
  apply String.eqb_neq in Hext. rewrite Hext. reflexivity.
Qed.

(** X15: a file with named waypoints but no route or track points fails
    with [ValueError] after the lookup was posted: exit code 1, the
    conversion-failed message, no file. *)
Theorem named_waypoints_without_polyline_fail_after_lookup
    (prog inp : string) (gpx : GPX) (elevations : list (R * R * R)) :
  lower (snd (splitext inp)) = ".gpx"%string ->
  gpxpy_parse inp = Ok gpx ->
  select_route_points gpx = [] ->
  named_waypoints gpx <> [] ->
  requests_post (locations_of (collect_named_points latlong2grid gpx))
  = Ok elevations ->
  main latlong2grid str_grid gpxpy_parse requests_post write_xlsx [prog; inp]
  = {| exit_code := 1;
       events :=
         [Open inp;
          Post (map (fun w => (wpt_latitude w, wpt_longitude w))
                    (named_waypoints gpx));
          PrintErr (ConversionFailed ValueError)] |}.
Proof.
  intros Hext Hparse Hrp Hnamed Hpost.
  rewrite (main_with_gpx_extension prog inp Hext).
  rewrite (extract_after_lookup GridRef latlong2grid str_grid gpxpy_parse
             requests_post inp gpx elevations Hparse Hpost).
  rewrite (locations_of_collected GridRef latlong2grid gpx), Hrp.
  rewrite build_rows_without_polyline; [reflexivity|].
  intros Hnil.
  pose proof (length_collected GridRef latlong2grid gpx) as Hn.
  rewrite Hnil, Hrp in Hn. simpl in Hn.
  destruct (named_waypoints gpx); [contradiction|discriminate].
Qed.

(** X16: a file with no route or track points and no named waypoint gives
    no rows: after an empty lookup the program reports that no waypoints
    were found and exits with code 1, writing nothing. *)
Theorem file_without_polyline_or_named_waypoints_has_no_waypoints
    (prog inp : string) (gpx : GPX) (elevations : list (R * R * R)) :
  lower (snd (splitext inp)) = ".gpx"%string ->
  gpxpy_parse inp = Ok gpx ->
  select_route_points gpx = [] ->
  named_waypoints gpx = [] ->
  requests_post [] = Ok elevations ->
  main latlong2grid str_grid gpxpy_parse requests_post write_xlsx [prog; inp]
  = {| exit_code := 1;
       events := [Open inp; Post []; PrintErr NoWaypointsFound] |}.
Proof.
  intros Hext Hparse Hrp Hnamed Hpost.
  rewrite (main_with_gpx_extension prog inp Hext).
  pose proof (locations_of_collected GridRef latlong2grid gpx) as Hloc.
  rewrite Hrp, Hnamed in Hloc. simpl in Hloc.
  assert (Hnil : collect_named_points latlong2grid gpx = []).
  { destruct (collect_named_points latlong2grid gpx); [reflexivity|discriminate]. }
  assert (Hpost' : requests_post
                     (locations_of (collect_named_points latlong2grid gpx))
                   = Ok elevations) by (rewrite Hloc; exact Hpost).
  rewrite (extract_after_lookup GridRef latlong2grid str_grid gpxpy_parse
             requests_post inp gpx elevations Hparse Hpost').
  rewrite Hloc, Hrp, Hnil. reflexivity.
Qed.

(** X17: when the parser raises, nothing is looked up or written; the
    program exits with code 1, with the invalid-GPX message for an XML syntax
    error and the conversion-failed message for anything else. *)
Theorem parse_failure_stops_before_the_lookup
    (prog inp : string) (e : exn) :
  lower (snd (splitext inp)) = ".gpx"%string ->
  gpxpy_parse inp = Raise e ->
  main latlong2grid str_grid gpxpy_parse requests_post write_xlsx [prog; inp]
  = {| exit_code := 1;
       events := [Open inp; PrintErr (failure_message e)] |}.
Proof.
  intros Hext Hparse.
  rewrite (main_with_gpx_extension prog inp Hext).
  unfold extract_named_waypoints. rewrite Hparse. reflexivity.
Qed.

(** X18: an exit code of 0 means that the single argument has a [.gpx]
    extension, the file parsed, the lookup answered, the extraction gave at
    least one row and the writer saved the worksheet of those rows at the
    input path with its extension replaced by [.xlsx]; the effects were, in
    order, the open, the lookup, the write and the two messages, the second
    with the number of rows. *)
Theorem exit_code_0_means_the_rows_were_written (argv : list string) :
  exit_code
    (main latlong2grid str_grid gpxpy_parse requests_post write_xlsx argv)
  = 0%Z ->
  exists (prog inp : string) (gpx : GPX) (elevations : list (R * R * R))
         (rows : list Row),
    argv = [prog; inp] /\
    lower (snd (splitext inp)) = ".gpx"%string /\
    gpxpy_parse inp = Ok gpx /\
    requests_post (locations_of (collect_named_points latlong2grid gpx))
    = Ok elevations /\
    snd (extract_named_waypoints latlong2grid str_grid gpxpy_parse
           requests_post inp) = Ok rows /\
    rows <> [] /\
    write_xlsx (fst (splitext inp) ++ ".xlsx")%string (build_worksheet rows)
    = Ok tt /\
    events
      (main latlong2grid str_grid gpxpy_parse requests_post write_xlsx argv)
    = [Open inp;
       Post (locations_of (collect_named_points latlong2grid gpx));
       WriteXlsx (fst (splitext inp) ++ ".xlsx")%string
         (build_worksheet rows);
       PrintOut (Converted inp (fst (splitext inp) ++ ".xlsx")%string);
       PrintOut (Found (List.length rows))].
Proof.
  intros Hexit.
  destruct (Nat.eq_dec (List.length argv) 2) as [Hlen|Hlen].
  2: { rewrite (wrong_argument_count_prints_usage_aux argv Hlen) in Hexit.
       discriminate. }
  destruct argv as [|prog [|inp [|x argv]]]; try discriminate. clear Hlen.
  destruct (String.eqb_spec (lower (snd (splitext inp))) ".gpx") as [Hext|Hext].
  2: { destruct (wrong_extension_aux prog inp Hext) as [E _].
       rewrite E in Hexit. discriminate. }
  rewrite (main_with_gpx_extension prog inp Hext) in Hexit |- *.
  destruct (gpxpy_parse inp) as [gpx|e] eqn:Hparse.
  2: { unfold extract_named_waypoints in Hexit. rewrite Hparse in Hexit.
       discriminate. }
  destruct (requests_post (locations_of (collect_named_points latlong2grid gpx)))
    as [elevations|e] eqn:Hpost.
  2: { unfold extract_named_waypoints, get_elevations_post in Hexit.
       rewrite Hparse, Hpost in Hexit. discriminate. }
  rewrite (extract_after_lookup GridRef latlong2grid str_grid gpxpy_parse
             requests_post inp gpx elevations Hparse Hpost) in Hexit |- *.
  destruct (build_rows str_grid (select_route_points gpx)
              (collect_named_points latlong2grid gpx) elevations)
    as [[|row rows]|e] eqn:Hrows; try discriminate.
  destruct (write_xlsx (fst (splitext inp) ++ ".xlsx")%string
              (build_worksheet (row :: rows))) as [[]|e] eqn:Hsave;
    [|discriminate].
  exists prog, inp, gpx, elevations, (row :: rows).
  pose proof (extract_after_lookup GridRef latlong2grid str_grid gpxpy_parse
                requests_post inp gpx elevations Hparse Hpost) as E.
  rewrite Hrows in E.
  split; [reflexivity|]. split; [exact Hext|]. split; [exact Hparse|].
  split; [exact Hpost|]. split; [rewrite E; reflexivity|].
  split; [discriminate|]. split; [exact Hsave|]. reflexivity.
Qed.

(** X19: for every argument list the exit code is 0 or 1, and a saved
    file's path is the single argument with its [.gpx] extension (in any
    letter case) replaced by [.xlsx]. *)
Theorem exit_code_is_0_or_1_and_output_replaces_extension
    (argv : list string) :
  (exit_code
     (main latlong2grid str_grid gpxpy_parse requests_post write_xlsx argv)
   = 0%Z \/
   exit_code
     (main latlong2grid str_grid gpxpy_parse requests_post write_xlsx argv)
   = 1%Z) /\
  (forall path ws,
     In (WriteXlsx path ws)
        (events
           (main latlong2grid str_grid gpxpy_parse requests_post write_xlsx
              argv)) ->
     exists prog base ext,
       argv = [prog; (base ++ ext)%string] /\
       lower ext = ".gpx"%string /\
       path = (base ++ ".xlsx")%string).
Proof.
  assert (Hno : forall evs m, (forall path ws, ~ In (WriteXlsx path ws) evs) ->
                 forall path ws, ~ In (WriteXlsx path ws) (evs ++ [PrintErr m])).
  { intros evs m Hev path ws Hin. apply in_app_or in Hin.
    destruct Hin as [Hin|[Hin|[]]]; [exact (Hev path ws Hin)|discriminate]. }
  destruct (Nat.eq_dec (List.length argv) 2) as [Hlen|Hlen].
  2: { rewrite (wrong_argument_count_prints_usage_aux argv Hlen). simpl.
       split; [right; reflexivity|].
       intros path ws [H|[]]. discriminate. }
  destruct argv as [|prog [|inp [|x argv]]]; try discriminate. clear Hlen.
  destruct (String.eqb_spec (lower (snd (splitext inp))) ".gpx") as [Hext|Hext].
  2: { destruct (wrong_extension_aux prog inp Hext) as [E Hw]. rewrite E. simpl.
       split; [right; reflexivity|].
       intros path ws [H|[]]. discriminate. }
  rewrite (main_with_gpx_extension prog inp Hext).
  pose proof (extract_events GridRef latlong2grid str_grid gpxpy_parse
                requests_post inp) as Hev.
  destruct (extract_named_waypoints _ _ _ _ inp) as [evs [[|row rows]|e]];
    simpl in Hev |- *.
  - split; [right; reflexivity|].
    intros path ws Hin. exfalso. exact (Hno _ _ (fun p w => Hev p w) _ _ Hin).
  - destruct (write_xlsx _ _) as [u|e]; simpl.
    + split; [left; reflexivity|].
      intros path ws Hin. apply in_app_or in Hin.
      destruct Hin as [Hin|[Hin|[Hin|[Hin|[]]]]];
        [exfalso; exact (Hev _ _ Hin)| |discriminate|discriminate].
      injection Hin as <- _.
      exists prog, (fst (splitext inp)), (snd (splitext inp)).
      rewrite splitext_join. repeat split. exact Hext.
    + split; [right; reflexivity|].
      intros path ws Hin. exfalso.
      exact (Hno _ _ (fun p w => Hev p w) _ _ Hin).
  - split; [right; reflexivity|].
    intros path ws Hin. exfalso. exact (Hno _ _ (fun p w => Hev p w) _ _ Hin).
Qed.

(** X23: when the extraction gave rows and the writer raises, the program
    prints the failure message for that exception after the effects of the
    extraction and exits with code 1; no saved file is recorded. *)
Theorem writer_failure_is_reported_with_exit_code_1
    (prog inp : string) (row : Row) (rows : list Row) (e : exn) :
  lower (snd (splitext inp)) = ".gpx"%string ->
  snd (extract_named_waypoints latlong2grid str_grid gpxpy_parse
         requests_post inp) = Ok (row :: rows) ->
  write_xlsx (fst (splitext inp) ++ ".xlsx")%string
    (build_worksheet (row :: rows)) = Raise e ->
  main latlong2grid str_grid gpxpy_parse requests_post write_xlsx [prog; inp]
  = {| exit_code := 1;
       events :=
         fst (extract_named_waypoints latlong2grid str_grid gpxpy_parse
                requests_post inp)
         ++ [PrintErr (failure_message e)] |}.
Proof.
  intros Hext Hrows Hsave.
  rewrite (main_with_gpx_extension prog inp Hext).
  destruct (extract_named_waypoints _ _ _ _ inp) as [evs res].
  simpl in Hrows |- *. subst res. rewrite Hsave. reflexivity.
Qed.

End MainOutcomes.

(** ** The layout of the worksheet *)

Lemma existsb_range (r lo hi : nat) :
  existsb (Nat.eqb r) (range lo hi) = ((lo <=? r) && (r <? hi))%nat.
Proof.
  destruct (existsb (Nat.eqb r) (range lo hi)) eqn:E.
  - apply existsb_exists in E. destruct E as (x & Hx & Hr).
    apply Nat.eqb_eq in Hr. subst x. apply in_range in Hx.
    symmetry. apply andb_true_iff. split;
      [apply Nat.leb_le|apply Nat.ltb_lt]; lia.
  - symmetry. apply not_true_is_false. intros H.
    apply andb_true_iff in H. destruct H as [H1 H2].
    apply Nat.leb_le in H1. apply Nat.ltb_lt in H2.
    assert (Hex : existsb (Nat.eqb r) (range lo hi) = true).
    { apply existsb_exists. exists r. split; [|apply Nat.eqb_refl].
      unfold range. apply in_seq. lia. }
    rewrite Hex in E. discriminate.
Qed.

Lemma fill_column_cell (column : nat) (formula : nat -> string) (n : nat)
    (ws : worksheet) (r c : nat) :
  fill_column column formula n ws r c
  = if ((c =? column) && is_data_row n r)%nat
    then Some (VStr (formula r)) else ws r c.
Proof. unfold fill_column. rewrite fill_cells, existsb_range. reflexivity. Qed.

Lemma ws_set_cell (r0 c0 : nat) (v : value) (ws : worksheet) (r c : nat) :
  ws_set r0 c0 v ws r c
  = if ((r =? r0) && (c =? c0))%nat then Some v else ws r c.
Proof. reflexivity. Qed.

Lemma insert_cols_cell (idx : nat) (ws : worksheet) (r c : nat) :
  insert_cols idx ws r c
  = if (c <? idx)%nat then ws r c
    else if (c =? idx)%nat then None else ws r (c - 1)%nat.
Proof. reflexivity. Qed.

Ltac worksheet_cell :=
  cbv beta zeta delta [build_worksheet];
  repeat (progress (rewrite ?fill_column_cell, ?ws_set_cell, ?insert_cols_cell;
                    cbn [Nat.eqb Nat.ltb Nat.leb Nat.sub andb])).

(** X20: whatever the rows, row 1 of the worksheet holds the ten headings:
    the seven of the frame with Time, Rest and Arrival Time inserted after
    Ascent, so that Description and Escape Notes end in columns 9 and 10. *)
Theorem header_row_has_the_ten_headings (rows : list Row) (c : nat) :
  build_worksheet rows 1%nat c
  = if (c =? 0)%nat then None
    else nth_error
           [VStr "Grid Reference"; VStr "Waypoint"; VStr "Distance (km)";
            VStr "Bearing"; VStr "Ascent (m)"; VStr "Time (min)";
            VStr "Rest (min)"; VStr "Arrival Time"; VStr "Description";
            VStr "Escape Notes"]
           (c - 1).
Proof.
  do 11 (destruct c as [|c]; [worksheet_cell; reflexivity|]).
  worksheet_cell. unfold to_excel, headings. cbn.
  destruct c; reflexivity.
Qed.

(** X21: the worksheet row of the frame row at position [i] is row
    [i + 2]; it holds the row's grid reference, name, distance, bearing and
    ascent in columns 1 to 5, the time, rest and arrival formulas for that
    row in columns 6 to 8, the description in column 9 and an empty text in
    column 10. *)
Theorem data_row_holds_the_row_and_its_formulas
    (rows : list Row) (i : nat) (row : Row) (c : nat) :
  nth_error rows i = Some row ->
  build_worksheet rows (i + 2)%nat c
  = if (c =? 0)%nat then None
    else nth_error
           [VStr (grid_reference row); VStr (name row);
            distance_from_last_km row; bearing row; ascent row;
            VStr (time_formula (i + 2)); VStr (rest_formula (i + 2));
            VStr (arrival_formula (i + 2)); VStr (description row);
            VStr EmptyString]
           (c - 1).
Proof.
  intros Hrow.
  assert (Hi : (i < List.length rows)%nat)
    by (apply nth_error_Some; rewrite Hrow; discriminate).
  replace (i + 2)%nat with (S (S i)) by lia.
  assert (Hin : is_data_row (List.length rows) (S (S i)) = true).
  { unfold is_data_row. apply andb_true_iff.
    split; [apply Nat.leb_le|apply Nat.ltb_lt]; lia. }
  do 11 (destruct c as [|c];
         [worksheet_cell; rewrite ?Hin; unfold to_excel, row_cells;
          cbn [Nat.eqb Nat.ltb Nat.leb Nat.sub andb];
          rewrite ?Nat.sub_0_r, ?Hrow; reflexivity|]).
  worksheet_cell. rewrite ?Hin. unfold to_excel, row_cells.
  cbn [Nat.eqb Nat.ltb Nat.leb Nat.sub andb]. rewrite ?Nat.sub_0_r, Hrow.
  cbn. destruct c; reflexivity.
Qed.

(** X22: the worksheet has no cell in row 0 or below the last data
    row. *)
Theorem nothing_is_written_outside_header_and_data_rows
    (rows : list Row) (r c : nat) :
  (r = 0 \/ List.length rows + 2 <= r)%nat ->
  build_worksheet rows r c = None.
Proof.
  intros Hr.
  assert (Hout : is_data_row (List.length rows) r = false).
  { unfold is_data_row. apply andb_false_iff. destruct Hr as [->|Hr]; [left; reflexivity|].
    right. apply Nat.ltb_ge. exact Hr. }
  assert (Hr1 : (r =? 1)%nat = false) by (apply Nat.eqb_neq; lia).
  assert (Hexcel : forall c', to_excel rows r c' = None).
  { intros c'. unfold to_excel. rewrite Hr1.
    destruct (c' =? 0)%nat; [reflexivity|].
    destruct (2 <=? r)%nat eqn:E; [|reflexivity].
    assert (Hn : nth_error rows (r - 2) = None).
    { apply nth_error_None. apply Nat.leb_le in E. lia. }
    rewrite Hn. reflexivity. }
  do 11 (destruct c as [|c];
         [worksheet_cell; rewrite ?Hout, ?Hr1;
          cbn [andb]; rewrite ?Hexcel; reflexivity|]).
  worksheet_cell. rewrite ?Hout, ?Hr1. cbn [andb]. apply Hexcel.
Qed.

(** ** The further properties at the example files *)

(** X4 from latitude 0 to latitude 1. *)
Lemma bearing_due_north_is_0_witness :
  0 < 1 - 0 < 180 /\ calculate_bearing 0 5 1 5 = 0%Z.
Proof.
  assert (H : 0 < 1 - 0 < 180) by lra.
  split; [exact H|]. apply (bearing_due_north_is_0 0 1 5 H).
Defined.


(** X8 at the second point of the example route. *)
Lemma waypoint_on_polyline_point_matches_at_distance_0_witness :
  (1 < List.length Example.route)%nat /\
  exists i,
    nearest_idx Example.route (fst (nth 1 Example.route (0, 0)))
                              (snd (nth 1 Example.route (0, 0))) = Ok i /\
    (i <= 1)%nat /\
    distance_to Example.route (fst (nth 1 Example.route (0, 0)))
                              (snd (nth 1 Example.route (0, 0))) i = 0.
Proof.
  assert (H : (1 < List.length Example.route)%nat) by (simpl; lia).
  split; [exact H|].
  apply (waypoint_on_polyline_point_matches_at_distance_0 Example.route 1 H).
Defined.

(** X10 at the example route. *)
Lemma rows_keep_names_and_descriptions_in_file_order_witness :
  exists rows,
    snd (extract_named_waypoints Example.latlong2grid Example.str_grid
           Example.parse (Example.post Example.integer_elevations)
           "route.gpx") = Ok rows /\
    List.length rows = 3%nat /\
    map name rows = ["START"; "Summit"; "END"]%string /\
    map description rows = [""; "Trig point"; ""]%string.
Proof.
  apply (rows_keep_names_and_descriptions_in_file_order string
           Example.latlong2grid Example.str_grid Example.parse
           (Example.post Example.integer_elevations) "route.gpx" Example.gpx
           Example.integer_elevations);
    [reflexivity|discriminate|reflexivity|right; simpl; lia].
Defined.

(** X11 at the example route. *)
Lemma grid_references_are_right_justified_conversions_witness :
  exists rows,
    snd (extract_named_waypoints Example.latlong2grid Example.str_grid
           Example.parse (Example.post Example.integer_elevations)
           "route.gpx") = Ok rows /\
    map grid_reference rows
    = map (fun loc =>
             rjust (Example.str_grid
                      (Example.latlong2grid (fst loc) (snd loc))) 8)
          (locations_of (collect_named_points Example.latlong2grid Example.gpx)) /\
    (forall r, In r rows -> (8 <= String.length (grid_reference r))%nat).
Proof.
  apply (grid_references_are_right_justified_conversions string
           Example.latlong2grid Example.str_grid Example.parse
           (Example.post Example.integer_elevations) "route.gpx" Example.gpx
           Example.integer_elevations);
    [reflexivity|discriminate|reflexivity|right; simpl; lia].
Defined.

(** X12 at the example route. *)
Lemma rows_after_the_first_are_fully_filled_witness :
  exists rows,
    snd (extract_named_waypoints Example.latlong2grid Example.str_grid
           Example.parse (Example.post Example.integer_elevations)
           "route.gpx") = Ok rows /\
    forall (i : nat) (r : Row),
      (1 <= i)%nat -> nth_error rows i = Some r ->
      exists (d : R) (digits : string) (z : Z),
        distance_from_last_km r = VFloat d /\ 0 <= d /\
        bearing r = VStr (digits ++ degree_sign) /\
        String.length digits = 3%nat /\
        ascent r = VInt z.
Proof.
  apply (rows_after_the_first_are_fully_filled string
           Example.latlong2grid Example.str_grid Example.parse
           (Example.post Example.integer_elevations) "route.gpx" Example.gpx
           Example.integer_elevations);
    [reflexivity|discriminate|reflexivity|right; simpl; lia].
Defined.

(** X13 at the example route, with a lookup that is one elevation short. *)
Lemma lookup_asks_for_start_then_named_waypoints_witness :
  Example.parse "route.gpx" = Ok Example.gpx /\
  fst (extract_named_waypoints Example.latlong2grid Example.str_grid
         Example.parse (Example.post Example.short_elevations) "route.gpx")
  = [Open "route.gpx"; Post [(0, 0); (0, 1); (0, 2)]].
Proof.
  split; [reflexivity|].
  apply (lookup_asks_for_start_then_named_waypoints string
           Example.latlong2grid Example.str_grid Example.parse
           (Example.post Example.short_elevations) "route.gpx" Example.gpx).
  reflexivity.
Defined.

(** X15 at a file with a named waypoint and an empty track. *)
Lemma named_waypoints_without_polyline_fail_after_lookup_witness :
  select_route_points Edge.gpx_waypoints_only = [] /\
  named_waypoints Edge.gpx_waypoints_only <> [] /\
  main Example.latlong2grid Example.str_grid Edge.parse_waypoints_only
    (Example.post Example.short_elevations) Example.save
    ["gpx2routecard"%string; "points.GPX"%string]
  = {| exit_code := 1;
       events := [Open "points.GPX"; Post [(0, 1)];
                  PrintErr (ConversionFailed ValueError)] |}.
Proof.
  split; [reflexivity|]. split; [discriminate|].
  apply (named_waypoints_without_polyline_fail_after_lookup string
           Example.latlong2grid Example.str_grid Edge.parse_waypoints_only
           (Example.post Example.short_elevations) Example.save
           "gpx2routecard" "points.GPX" Edge.gpx_waypoints_only
           Example.short_elevations);
    [reflexivity|reflexivity|reflexivity|discriminate|reflexivity].
Defined.

(** X16 at a file with an empty route and one waypoint without a name. *)
Lemma file_without_polyline_or_named_waypoints_has_no_waypoints_witness :
  select_route_points Edge.gpx_empty = [] /\
  named_waypoints Edge.gpx_empty = [] /\
  main Example.latlong2grid Example.str_grid Edge.parse_empty
    (Example.post []) Example.save ["gpx2routecard"%string; "empty.gpx"%string]
  = {| exit_code := 1;
       events := [Open "empty.gpx"; Post []; PrintErr NoWaypointsFound] |}.
Proof.
  split; [reflexivity|]. split; [reflexivity|].
  apply (file_without_polyline_or_named_waypoints_has_no_waypoints string
           Example.latlong2grid Example.str_grid Edge.parse_empty
           (Example.post []) Example.save "gpx2routecard" "empty.gpx"
           Edge.gpx_empty []);
    reflexivity.
Defined.

(** X17 at a file that is not XML. *)
Lemma parse_failure_stops_before_the_lookup_witness :
  Edge.parse_invalid "broken.gpx" = Raise GPXXMLSyntaxException /\
  main Example.latlong2grid Example.str_grid Edge.parse_invalid
    (Example.post Example.integer_elevations) Example.save
    ["gpx2routecard"%string; "broken.gpx"%string]
  = {| exit_code := 1;
       events := [Open "broken.gpx"; PrintErr InvalidGPX] |}.
Proof.
  split; [reflexivity|].
  apply (parse_failure_stops_before_the_lookup string
           Example.latlong2grid Example.str_grid Edge.parse_invalid
           (Example.post Example.integer_elevations) Example.save
           "gpx2routecard" "broken.gpx" GPXXMLSyntaxException); reflexivity.
Defined.

(** X14 at the example route. *)
Lemma extraction_returns_rows_only_when_witness :
  (exists rows,
     snd (extract_named_waypoints Example.latlong2grid Example.str_grid
            Example.parse (Example.post Example.integer_elevations)
            "route.gpx") = Ok rows) /\
  exists gpx elevations,
    Example.parse "route.gpx" = Ok gpx /\
    Example.post Example.integer_elevations
      (locations_of (collect_named_points Example.latlong2grid gpx))
    = Ok elevations /\
    ((select_route_points gpx = [] /\ named_waypoints gpx = []) \/
     (select_route_points gpx <> [] /\
      (named_waypoints gpx = [] \/
       S (List.length (named_waypoints gpx)) <= List.length elevations)%nat)).
Proof.
  assert (H : exists rows,
             snd (extract_named_waypoints Example.latlong2grid
                    Example.str_grid Example.parse
                    (Example.post Example.integer_elevations) "route.gpx")
             = Ok rows).
  { destruct (extract_first_row string Example.latlong2grid Example.str_grid
                Example.parse (Example.post Example.integer_elevations)
                "route.gpx" Example.gpx Example.integer_elevations)
      as (first & rest & Hrows & _);
      [reflexivity|reflexivity|discriminate|right; simpl; lia|].
    exists (first :: rest). exact Hrows. }
  split; [exact H|].
  apply (extraction_returns_rows_only_when string Example.latlong2grid
           Example.str_grid Example.parse
           (Example.post Example.integer_elevations) "route.gpx" H).
Defined.

(** X18 at the example route, given as [walks/route.GPX]. *)
Lemma exit_code_0_means_the_rows_were_written_witness :
  exit_code
    (main Example.latlong2grid Example.str_grid Example.parse
       (Example.post Example.integer_elevations) Example.save
       ["gpx2routecard"%string; "walks/route.GPX"%string]) = 0%Z /\
  exists (prog inp : string) (gpx : GPX) (elevations : list (R * R * R))
         (rows : list Row),
    ["gpx2routecard"%string; "walks/route.GPX"%string] = [prog; inp] /\
    lower (snd (splitext inp)) = ".gpx"%string /\
    Example.parse inp = Ok gpx /\
    Example.post Example.integer_elevations
      (locations_of (collect_named_points Example.latlong2grid gpx))
    = Ok elevations /\
    snd (extract_named_waypoints Example.latlong2grid Example.str_grid
           Example.parse (Example.post Example.integer_elevations) inp)
    = Ok rows /\
    rows <> [] /\
    Example.save (fst (splitext inp) ++ ".xlsx")%string (build_worksheet rows)
    = Ok tt /\
    events
      (main Example.latlong2grid Example.str_grid Example.parse
         (Example.post Example.integer_elevations) Example.save
         ["gpx2routecard"%string; "walks/route.GPX"%string])
    = [Open inp;
       Post (locations_of (collect_named_points Example.latlong2grid gpx));
       WriteXlsx (fst (splitext inp) ++ ".xlsx")%string
         (build_worksheet rows);
       PrintOut (Converted inp (fst (splitext inp) ++ ".xlsx")%string);
       PrintOut (Found (List.length rows))].
Proof.
  assert (H : exit_code
                (main Example.latlong2grid Example.str_grid Example.parse
                   (Example.post Example.integer_elevations) Example.save
                   ["gpx2routecard"%string; "walks/route.GPX"%string])
              = 0%Z).
  { destruct (extract_first_row string Example.latlong2grid Example.str_grid
                Example.parse (Example.post Example.integer_elevations)
                "walks/route.GPX" Example.gpx Example.integer_elevations)
      as (first & rest & Hrows & _);
      [reflexivity|reflexivity|discriminate|right; simpl; lia|].
    apply (main_converted string Example.latlong2grid Example.str_grid
             Example.parse (Example.post Example.integer_elevations)
             Example.save "gpx2routecard" "walks/route.GPX" first rest);
      [reflexivity|exact Hrows|reflexivity]. }
  split; [exact H|].
  apply (exit_code_0_means_the_rows_were_written string Example.latlong2grid
           Example.str_grid Example.parse
           (Example.post Example.integer_elevations) Example.save
           ["gpx2routecard"%string; "walks/route.GPX"%string] H).
Defined.

(** X23 at the example route, when the output path cannot be written. *)
Lemma writer_failure_is_reported_with_exit_code_1_witness :
  main Example.latlong2grid Example.str_grid Example.parse
    (Example.post Example.integer_elevations) Edge.save_refused
    ["gpx2routecard"%string; "route.gpx"%string]
  = {| exit_code := 1;
       events :=
         [Open "route.gpx"; Post [(0, 0); (0, 1); (0, 2)];
          PrintErr (ConversionFailed (OtherException "IsADirectoryError"))] |}.
Proof.
  destruct (extract_first_row string Example.latlong2grid Example.str_grid
              Example.parse (Example.post Example.integer_elevations)
              "route.gpx" Example.gpx Example.integer_elevations)
    as (first & rest & Hrows & _);
    [reflexivity|reflexivity|discriminate|right; simpl; lia|].
  rewrite (writer_failure_is_reported_with_exit_code_1 string
             Example.latlong2grid Example.str_grid Example.parse
             (Example.post Example.integer_elevations) Edge.save_refused
             "gpx2routecard" "route.gpx" first rest
             (OtherException "IsADirectoryError")
             eq_refl Hrows eq_refl).
  reflexivity.
Defined.

(** X21 at the second of two rows. *)
Lemma data_row_holds_the_row_and_its_formulas_witness :
  nth_error [Example.end_row; Example.end_row] 1 = Some Example.end_row /\
  build_worksheet [Example.end_row; Example.end_row] 3%nat 8%nat
  = Some (VStr (arrival_formula 3)).
Proof.
  split; [reflexivity|].
  apply (data_row_holds_the_row_and_its_formulas
           [Example.end_row; Example.end_row] 1 Example.end_row 8).
  reflexivity.
Defined.

(** X22 below the only data row. *)
Lemma nothing_is_written_outside_header_and_data_rows_witness :
  (3 = 0 \/ List.length [Example.end_row] + 2 <= 3)%nat /\
  build_worksheet [Example.end_row] 3%nat 1%nat = None.
Proof.
  assert (H : (3 = 0 \/ List.length [Example.end_row] + 2 <= 3)%nat)
    by (right; simpl; lia).
  split; [exact H|].
  apply (nothing_is_written_outside_header_and_data_rows
           [Example.end_row] 3 1 H).
Defined.
